(** * Admin dashboard (src/app/page.tsx): realtime projection and resolution workflow

    A shallow embedding of the logic of the [AdminDashboard] component:
    the three [onValue] listeners, [toggleResolveStatus],
    [sendNotificationToUser], [handleReportClick], [handleResponseSubmit],
    [handleBlockUser] and [communityChartData].

    The component is TypeScript, but the records it handles come out of
    [childSnapshot.val()], which is untyped at run time.  Values are therefore
    modelled as JavaScript values, objects as finite maps from property
    names to values, and the realtime database as one tree of such values
    addressed by slash-separated paths. *)

From Stdlib Require Import Ascii.
From stdpp Require Import gmap strings list fin_maps pretty.

Set Warnings "-register-all".

(* ===================================================================== *)
(** ** JavaScript values *)
(* ===================================================================== *)

Module Js.

(** Numbers are the integers the program handles (epoch milliseconds,
    literal [1], counts); objects are maps from own property names to values. *)
Inductive value : Type :=
  | VUndefined
  | VNull
  | VBool (b : bool)
  | VNum (n : Z)
  | VStr (s : string)
  | VObj (props : gmap string value).

Abbreviation object := (gmap string value).

(** [o.k]: a missing property reads as [undefined]. *)
Definition get (o : object) (k : string) : value :=
  default VUndefined (o !! k).

(** ToBoolean. *)
Definition truthy (v : value) : bool :=
  match v with
  | VUndefined | VNull => false
  | VBool b => b
  | VNum n => negb (n =? 0)%Z
  | VStr s => negb (String.eqb s "")
  | VObj _ => true
  end.

(** [a || b]. *)
Definition or_else (a b : value) : value := if truthy a then a else b.

(** [v === 'lit'] for a string literal. *)
Definition eq_str (v : value) (lit : string) : bool :=
  match v with
  | VStr s => String.eqb s lit
  | _ => false
  end.

(** ToString, as applied by a template literal [`${v}`]; the number case
    is the decimal form JavaScript prints for integers below 10^21. *)
Definition to_string (v : value) : string :=
  match v with
  | VUndefined => "undefined"
  | VNull => "null"
  | VBool true => "true"
  | VBool false => "false"
  | VNum n => pretty n
  | VStr s => s
  | VObj _ => "[object Object]"
  end.

(** Own enumerable properties copied by [...v] inside an object literal:
    those of an object, the indexed characters of a string (one per
    character of an ASCII string), none for the other primitives. *)
Definition own_props (v : value) : object :=
  match v with
  | VObj m => m
  | VStr s =>
      list_to_map
        (imap (fun i c => (pretty i, VStr (String c EmptyString)))
              (String.list_ascii_of_string s))
  | _ => ∅
  end.

(** [{ ...base, ...v }]: properties of [v] are copied over what the literal
    already holds, so on a shared name the later, spread value stays. *)
Definition spread (base : object) (v : value) : object :=
  own_props v ∪ base.

(** What a [throw] carries: the rejection of a remote call, or
    [new Error(message)]. *)
Inductive Fault : Type := PermissionDenied | Disconnected.

Inductive exn : Type :=
  | FirebaseError (f : Fault)
  | Error (message : string).

End Js.

Import Js.

(* ===================================================================== *)
(** ** The realtime database (firebase/database), as the component uses it *)
(* ===================================================================== *)

Module Firebase.

Definition Path := list string.

(** [ref(db, path)]: the path string is cut at every slash and empty pieces
    are dropped. *)
Fixpoint split_path (piece : string) (s : string) : Path :=
  match s with
  | EmptyString => if String.eqb piece "" then [] else [piece]
  | String c rest =>
      if Ascii.eqb c "/"%char
      then (if String.eqb piece "" then [] else [piece]) ++ split_path "" rest
      else split_path (piece +:+ String c EmptyString) rest
  end.

Definition ref (path : string) : Path := split_path "" path.

(** The database is one tree; a location that holds nothing reads [null]. *)
Definition children (n : value) : object :=
  match n with
  | VObj m => m
  | _ => ∅
  end.

Definition child (n : value) (k : string) : value :=
  default VNull (children n !! k).

Fixpoint get_at (p : Path) (n : value) : value :=
  match p with
  | [] => n
  | k :: p' => get_at p' (child n k)
  end.

Fixpoint alter_at (f : value -> value) (p : Path) (n : value) : value :=
  match p with
  | [] => f n
  | k :: p' => VObj (<[k := alter_at f p' (child n k)]> (children n))
  end.

(** [set(ref, v)] replaces what the location holds. *)
Definition set_at (p : Path) (v : value) : value -> value :=
  alter_at (fun _ => v) p.

(** [update(ref, values)] writes each given property under the location and
    leaves its other children as they are. *)
Definition merge (values : object) (n : value) : value :=
  VObj (values ∪ children n).

Definition update_at (p : Path) (values : object) : value -> value :=
  alter_at (merge values) p.

(** A snapshot handed to a listener: the children of the location in the
    order [forEach] visits them, each with its key and its [val()]. *)
Definition DataSnapshot := list (string * value).

Definition size (snapshot : DataSnapshot) : nat := length snapshot.

(** How one remote call settles: accepted, or rejected with a fault, after
    some time has passed on the client's clock.  A rejection stands for
    anything that makes [update] or [set] throw or reject inside the
    caller's [try]: the store's access rules, a lost connection, or the
    client library refusing the path or the value. *)
Inductive Verdict : Type :=
  | Accepted
  | Rejected (f : Fault).

Record Reply : Type := mkReply { verdict : Verdict; elapsed : Z }.

End Firebase.

Import Firebase.

(* ===================================================================== *)
(** ** Component state and the world around it *)
(* ===================================================================== *)

Record Stats : Type := mkStats {
  totalUsers : nat;
  totalReports : nat;
  resolvedReports : nat
}.

(** A [Report] at run time is whatever object the listener built. *)
Abbreviation Report := (gmap string value).

(** The [useState] cells of [AdminDashboard]. *)
Record Dashboard : Type := mkDashboard {
  reports : list Report;
  stats : Stats;
  loading : bool;
  error : option string;
  selectedReport : option Report;
  responseText : value
}.

(** Initial values of the [useState] cells. *)
Definition initial : Dashboard :=
  {| reports := [];
     stats := {| totalUsers := 0; totalReports := 0; resolvedReports := 0 |};
     loading := true;
     error := None;
     selectedReport := None;
     responseText := VStr "" |}.

Definition setReports (l : list Report) (d : Dashboard) : Dashboard :=
  mkDashboard l (stats d) (loading d) (error d) (selectedReport d) (responseText d).

Definition setStats (f : Stats -> Stats) (d : Dashboard) : Dashboard :=
  mkDashboard (reports d) (f (stats d)) (loading d) (error d) (selectedReport d)
              (responseText d).

Definition setLoading (b : bool) (d : Dashboard) : Dashboard :=
  mkDashboard (reports d) (stats d) b (error d) (selectedReport d) (responseText d).

Definition setError (msg : string) (d : Dashboard) : Dashboard :=
  mkDashboard (reports d) (stats d) (loading d) (Some msg) (selectedReport d)
              (responseText d).

Definition setSelectedReport (r : option Report) (d : Dashboard) : Dashboard :=
  mkDashboard (reports d) (stats d) (loading d) (error d) r (responseText d).

Definition setResponseText (v : value) (d : Dashboard) : Dashboard :=
  mkDashboard (reports d) (stats d) (loading d) (error d) (selectedReport d) v.

(** Everything outside the component: the remote tree, the clock read by
    [Date.now()], how the store answers the n-th remote call, and what was
    printed with [console.error] and shown with [alert]. *)
Record World : Type := mkWorld {
  db : value;
  clock : Z;
  calls : nat;
  remote : nat -> Reply;
  console : list (string * exn);
  alerts : list string
}.

Record State : Type := mkState { ui : Dashboard; env : World }.

(* ===================================================================== *)
(** ** Async functions: state passing with exceptions *)
(* ===================================================================== *)

(** An async function is run from its call to its completion; what the
    listeners do when a snapshot arrives while it is suspended at an
    [await] is a separate [deliver] before or after it. *)

Inductive completion (A : Type) : Type :=
  | Normal (a : A)
  | Throw (e : exn).

Arguments Normal {A} a.
Arguments Throw {A} e.

Definition Async (A : Type) : Type := State -> completion A * State.

Definition ret {A} (a : A) : Async A := fun st => (Normal a, st).

Definition bind {A B} (m : Async A) (k : A -> Async B) : Async B :=
  fun st =>
    match m st with
    | (Normal a, st') => k a st'
    | (Throw e, st') => (Throw e, st')
    end.

Definition throw {A} (e : exn) : Async A := fun st => (Throw e, st).

(** [try { body } catch (err) { handler }]. *)
Definition try_catch {A} (body : Async A) (handler : exn -> Async A) : Async A :=
  fun st =>
    match body st with
    | (Normal a, st') => (Normal a, st')
    | (Throw e, st') => handler e st'
    end.

Declare Scope async_scope.
Delimit Scope async_scope with async.
Notation "x <- m ;; k" := (bind m (fun x => k))
  (at level 100, m at next level, right associativity) : async_scope.
Notation "m ;; k" := (bind m (fun _ => k))
  (at level 100, right associativity) : async_scope.
Local Open Scope async_scope.

(** State setters lifted to the monad. *)
Definition render (f : Dashboard -> Dashboard) : Async unit :=
  fun st => (Normal tt, mkState (f (ui st)) (env st)).

(** The world after one [console.error], and after one [alert]. *)
Definition logged (label : string) (e : exn) (w : World) : World :=
  mkWorld (db w) (clock w) (calls w) (remote w) (console w ++ [(label, e)])
          (alerts w).

Definition alerted (msg : string) (w : World) : World :=
  mkWorld (db w) (clock w) (calls w) (remote w) (console w) (alerts w ++ [msg]).

Definition console_error (label : string) (e : exn) : Async unit :=
  fun st => (Normal tt, mkState (ui st) (logged label e (env st))).

Definition alert (msg : string) : Async unit :=
  fun st => (Normal tt, mkState (ui st) (alerted msg (env st))).

Definition Date_now : Async Z := fun st => (Normal (clock (env st)), st).

(** The store's answer to the call being made now. *)
Definition next_reply (w : World) : Reply := remote w (calls w).

(** The world once that call has settled, [write] being what it did to the
    tree. *)
Definition settle (write : value -> value) (w : World) : World :=
  mkWorld (write (db w)) (clock w + elapsed (next_reply w)) (S (calls w))
          (remote w) (console w) (alerts w).

(** [await] of one remote write: the store's answer decides whether the
    write is applied or the promise rejects. *)
Definition await_write (write : value -> value) : Async unit :=
  fun st =>
    match verdict (next_reply (env st)) with
    | Accepted => (Normal tt, mkState (ui st) (settle write (env st)))
    | Rejected f =>
        (Throw (FirebaseError f), mkState (ui st) (settle (fun d => d) (env st)))
    end.

Definition update (p : Path) (values : object) : Async unit :=
  await_write (update_at p values).

Definition set (p : Path) (v : value) : Async unit :=
  await_write (set_at p v).

(* ===================================================================== *)
(** ** The listeners set up by [fetchData] (lines 51-84) *)
(* ===================================================================== *)

(** Lines 58-61: [{ id: childSnapshot.key, ...childSnapshot.val() }]. *)
Definition report_of (childSnapshot : string * value) : Report :=
  spread {[ "id" := VStr (fst childSnapshot) ]} (snd childSnapshot).

(** Lines 56-63: [snapshot.forEach] pushes one report per child onto
    [reportsData]. *)
Definition reportsData (snapshot : DataSnapshot) : list Report :=
  foldl (fun data childSnapshot => data ++ [report_of childSnapshot]) [] snapshot.

(** The three [onValue] subscriptions: [reportsRef], [usersRef] and
    [resolvedQuery]. *)
Inductive Listener : Type :=
  | ReportsListener
  | UsersListener
  | ResolvedListener.

(** Success callbacks, lines 55-65, 72-73 and 80-81. *)
Definition onSnapshot (l : Listener) (snapshot : DataSnapshot) : Async unit :=
  match l with
  | ReportsListener =>
      let data := reportsData snapshot in
      render (setReports data) ;;
      render (setStats (fun prev =>
        {| totalUsers := totalUsers prev;
           totalReports := length data;
           resolvedReports := resolvedReports prev |}))
  | UsersListener =>
      render (setStats (fun prev =>
        {| totalUsers := size snapshot;
           totalReports := totalReports prev;
           resolvedReports := resolvedReports prev |}))
  | ResolvedListener =>
      render (setStats (fun prev =>
        {| totalUsers := totalUsers prev;
           totalReports := totalReports prev;
           resolvedReports := size snapshot |}))
  end.

(** Error callbacks, lines 66-69, 74-76 and 82-84. *)
Definition onFault (l : Listener) (err : exn) : Async unit :=
  match l with
  | ReportsListener =>
      console_error "Error fetching reports:" err ;;
      render (setError "Unable to fetch reports. Please check your permissions.")
  | UsersListener =>
      console_error "Error fetching users:" err
  | ResolvedListener =>
      console_error "Error fetching resolved reports:" err
  end.

(** What a subscription's stream can deliver. *)
Inductive StreamEvent : Type :=
  | Emits (l : Listener) (snapshot : DataSnapshot)
  | Fails (l : Listener) (err : exn).

Definition deliver (ev : StreamEvent) : Async unit :=
  match ev with
  | Emits l snapshot => onSnapshot l snapshot
  | Fails l err => onFault l err
  end.

(* ===================================================================== *)
(** ** Operations (lines 98-161) *)
(* ===================================================================== *)

(** Lines 98-110. *)
Definition toggleResolveStatus (reportId currentStatus response : value)
  : Async unit :=
  try_catch
    (let reportRef := ref ("reports/" +:+ to_string reportId) in
     t <- Date_now ;;
     update reportRef
       (<["status" := if eq_str currentStatus "resolved"
                      then VStr "pending" else VStr "resolved"]>
        (<["response" := or_else response (VStr "")]>
         (<["resolvedAt" := VNum t]> ∅))))
    (fun err =>
       console_error "Error updating report status:" err ;;
       render (setError "Unable to update report status. Please check your permissions.")).

(** The record written by line 115. *)
Definition notification (reportId response : value) (t : Z) : value :=
  VObj (<["type" := VStr "report_response"]>
        (<["message" := VStr ("Your report (ID: " +:+ to_string reportId
                              +:+ ") has been responded to.")]>
         (<["response" := response]>
          (<["createdAt" := VNum t]>
           (<["read" := VBool false]> ∅))))).

(** Lines 112-126. *)
Definition sendNotificationToUser (userId reportId response : value)
  : Async unit :=
  try_catch
    (let notificationRef :=
       ref ("users/" +:+ to_string userId +:+ "/notifications/"
            +:+ to_string reportId) in
     t <- Date_now ;;
     set notificationRef (notification reportId response t))
    (fun err =>
       console_error "Error sending notification:" err ;;
       throw (Error "Failed to send notification.")).

(** Lines 128-131. *)
Definition handleReportClick (report : Report) : Async unit :=
  render (setSelectedReport (Some report)) ;;
  render (setResponseText (or_else (get report "response") (VStr ""))).

(** Lines 133-150.  The closure reads [selectedReport] and [responseText]
    as they are when the handler is invoked. *)
Definition handleResponseSubmit : Async unit :=
  fun st =>
    let draft := responseText (ui st) in
    match selectedReport (ui st) with
    | Some selected =>
        try_catch
          (toggleResolveStatus (get selected "id") (get selected "status") draft ;;
           sendNotificationToUser (get selected "userId") (get selected "id") draft ;;
           render (setSelectedReport None) ;;
           render (setResponseText (VStr "")))
          (fun err =>
             console_error "Error submitting response:" err ;;
             render (setError "Failed to submit response. Please try again."))
          st
    | None => (Normal tt, st)
    end.

(** Lines 152-161. *)
Definition handleBlockUser (userId : value) : Async unit :=
  try_catch
    (let userRef := ref ("users/" +:+ to_string userId) in
     update userRef {[ "blocked" := VBool true ]} ;;
     alert "User blocked successfully")
    (fun err =>
       console_error "Error blocking user:" err ;;
       render (setError "Unable to block user. Please check your permissions.")).

(* ===================================================================== *)
(** ** Community chart (lines 182-187) *)
(* ===================================================================== *)

Module Chart.

(** One bar of the chart: [{ name: report.name, reports: 1 }]. *)
Record entry : Type := mk { name : value; reports : Z }.

End Chart.

Definition isCommunity (report : Report) : bool :=
  eq_str (get report "matterType") "Community".

Definition communityChartData (reports : list Report) : list Chart.entry :=
  List.map (fun report => Chart.mk (get report "name") 1)
           (List.filter isCommunity reports).

(** The projection as the specification words it: going through the list
    in order, a report tagged Community gives one bar of weight one carrying
    its name, and any other report gives nothing. *)
Inductive ChartOf : list Report -> list Chart.entry -> Prop :=
  | ChartOf_nil : ChartOf [] []
  | ChartOf_bar report rest bars :
      report !! "matterType" = Some (VStr "Community") ->
      ChartOf rest bars ->
      ChartOf (report :: rest) (Chart.mk (get report "name") 1 :: bars)
  | ChartOf_skip report rest bars :
      report !! "matterType" <> Some (VStr "Community") ->
      ChartOf rest bars ->
      ChartOf (report :: rest) bars.

(* ===================================================================== *)
(** ** Names for what the operations read and write *)
(* ===================================================================== *)

(** The properties [toggleResolveStatus] passes to [update] (lines 102-104),
    [t] being what [Date.now()] returned. *)
Definition toggled (currentStatus response : value) (t : Z) : gmap string value :=
  <["status" := if eq_str currentStatus "resolved"
                then VStr "pending" else VStr "resolved"]>
  (<["response" := or_else response (VStr "")]>
   (<["resolvedAt" := VNum t]> ∅)).

(** Line 100. *)
Definition reportPath (reportId : value) : Path :=
  ref ("reports/" +:+ to_string reportId).

(** Line 114. *)
Definition notificationPath (userId reportId : value) : Path :=
  ref ("users/" +:+ to_string userId +:+ "/notifications/" +:+ to_string reportId).

(** Line 154. *)
Definition userPath (userId : value) : Path :=
  ref ("users/" +:+ to_string userId).

(* ===================================================================== *)
(** ** Sample data *)
(* ===================================================================== *)

Module Sample.

(** A store that answers the calls with the listed verdicts, in order, and
    accepts every later one; each call takes 7 ms. *)
Definition answers (vs : list Verdict) : nat -> Reply :=
  fun i => mkReply (default Accepted (vs !! i)) 7.

Definition ann : value :=
  VObj (<["name" := VStr "Ann"]>
        (<["matterType" := VStr "Community"]>
         (<["status" := VStr "pending"]>
          (<["userId" := VStr "u1"]>
           (<["createdAt" := VNum 1700000000000]> ∅))))).

(** A stored report whose payload carries a field named [id]. *)
Definition bob : value :=
  VObj (<["id" := VStr "other"]>
        (<["name" := VStr "Bob"]>
         (<["matterType" := VStr "Legal"]>
          (<["status" := VStr "resolved"]>
           (<["userId" := VStr "u2"]> ∅))))).

Definition tree : value :=
  VObj (<["reports" := VObj (<["r1" := ann]> (<["r2" := bob]> ∅))]>
        (<["users" := VObj (<["u1" := VObj (<["email" := VStr "ann@example.org"]> ∅)]>
                            (<["u2" := VObj (<["email" := VStr "bob@example.org"]> ∅)]> ∅))]>
         ∅)).

Definition world (vs : list Verdict) : World :=
  mkWorld tree 1700000001000 0 (answers vs) [] [].

(** The dashboard with nothing selected. *)
Definition idle (vs : list Verdict) : State := mkState initial (world vs).

(** The dashboard after the operator opened report [r1] and typed a reply. *)
Definition replying (vs : list Verdict) : State :=
  mkState (setResponseText (VStr "We are on it")
             (setSelectedReport (Some (report_of ("r1", ann))) initial))
          (world vs).

End Sample.

(* ===================================================================== *)
(** ** Mounting, the handlers written in the JSX, and what is shown *)
(* ===================================================================== *)

(** Lines 51-84 create the references and register the three listeners;
    [thrown] is the exception one of these calls raises, if any. *)
Definition subscribe (thrown : option exn) : Async unit :=
  match thrown with
  | None => ret tt
  | Some err => throw err
  end.

(** Lines 49-93, run once when the component mounts (lines 48 and 95-96). *)
Definition fetchData (thrown : option exn) : Async unit :=
  try_catch
    (subscribe thrown ;;
     render (setLoading false))
    (fun err =>
       console_error "Error setting up listeners:" err ;;
       render (setError "Unable to connect to the database. Please try again later.") ;;
       render (setLoading false)).

(** Line 306: [onChange] of the textarea; [e.target.value] is a string. *)
Definition onResponseChange (text : string) : Async unit :=
  render (setResponseText (VStr text)).

(** Line 316: [onClick] of the Block User button.  The button is part of
    the dialog, which line 293 renders only while a report is selected. *)
Definition onBlockClick : Async unit :=
  fun st =>
    match selectedReport (ui st) with
    | Some selected => handleBlockUser (get selected "userId") st
    | None => (Normal tt, st)
    end.

(** Line 322: [onClick] of the Close button. *)
Definition onCloseClick : Async unit :=
  render (setSelectedReport None).

(** Which of its alternatives the component renders (lines 189-333): the
    error page of lines 189-209, or the dashboard with its three cards, one
    of the three forms of the report panel (lines 244-272), the chart or
    its placeholder (line 279), and the dialog or nothing (line 293).  What
    the rows and the dialog print is left out. *)
Inductive ListPanel : Type :=
  | LoadingReports
  | NoReportsFound
  | ReportRows.

Inductive Screen : Type :=
  | ErrorScreen (message : string)
  | DashboardScreen (cards : Stats) (panel : ListPanel)
                    (chartShown dialogOpen : bool).

Definition dashboardScreen (d : Dashboard) : Screen :=
  DashboardScreen
    (stats d)
    (if loading d then LoadingReports
     else if (length (reports d) =? 0)%nat then NoReportsFound
     else ReportRows)
    (0 <? length (communityChartData (reports d)))%nat
    (match selectedReport d with Some _ => true | None => false end).

(** Line 189, [if (error)]: the empty string is falsy like [null]. *)
Definition screen (d : Dashboard) : Screen :=
  match error d with
  | Some message =>
      if String.eqb message "" then dashboardScreen d else ErrorScreen message
  | None => dashboardScreen d
  end.

(** Everything the component reacts to: the mount, what the three streams
    deliver, and the operator's clicks and typing. *)
Inductive Action : Type :=
  | Mount (thrown : option exn)
  | Stream (ev : StreamEvent)
  | ClickRow (report : Report)
  | TypeResponse (text : string)
  | ClickSubmit
  | ClickBlock
  | ClickClose.

Definition act (a : Action) : Async unit :=
  match a with
  | Mount thrown => fetchData thrown
  | Stream ev => deliver ev
  | ClickRow report => handleReportClick report
  | TypeResponse text => onResponseChange text
  | ClickSubmit => handleResponseSubmit
  | ClickBlock => onBlockClick
  | ClickClose => onCloseClick
  end.

(** The state after a sequence of such events, each run to completion. *)
Definition run (trace : list Action) (st : State) : State :=
  foldl (fun st a => snd (act a st)) st trace.

(** The cells of the projection: report list, counters and loading flag. *)
Definition projection (d : Dashboard) : list Report * Stats * bool :=
  (reports d, stats d, loading d).

(** A draft that [response || ''] can produce: a truthy value or the empty
    string. *)
Definition draftOk (v : value) : Prop := truthy v = true \/ v = VStr "".

(* ===================================================================== *)
(** ** Reading and writing the tree *)
(* ===================================================================== *)

Section Tree.

Implicit Types (p q : Path) (n v : value) (f g : value -> value) (k : string).

Lemma child_insert k v (m : gmap string value) :
  child (VObj (<[k := v]> m)) k = v.
Proof. unfold child; simpl. by rewrite lookup_insert_eq. Qed.

Lemma child_insert_ne k k' v (m : gmap string value) :
  k <> k' -> child (VObj (<[k := v]> m)) k' = default VNull (m !! k').
Proof. intros Hne. unfold child; simpl. by rewrite lookup_insert_ne. Qed.

(** Reading a location just written gives what the write put there. *)
Lemma get_at_alter_at f p n : get_at p (alter_at f p n) = f (get_at p n).
Proof.
  revert n. induction p as [|k p IH]; intros n; simpl; [done|].
  by rewrite child_insert, IH.
Qed.

(** Two writes at one location compose. *)
Lemma alter_at_twice f g p n :
  alter_at g p (alter_at f p n) = alter_at (fun x => g (f x)) p n.
Proof.
  revert n. induction p as [|k p IH]; intros n; simpl; [done|].
  by rewrite child_insert, insert_insert_eq, IH.
Qed.

Lemma alter_at_ext f g p n :
  (forall x, f x = g x) -> alter_at f p n = alter_at g p n.
Proof.
  intros Hfg. revert n. induction p as [|k p IH]; intros n; simpl.
  - apply Hfg.
  - by rewrite IH.
Qed.

(** A write below one child of the root leaves the other children alone. *)
Lemma get_at_alter_at_other f k p k' q n :
  k <> k' -> get_at (k' :: q) (alter_at f (k :: p) n) = get_at (k' :: q) n.
Proof. intros Hne. simpl. by rewrite child_insert_ne. Qed.

Lemma get_at_set_at p v n : get_at p (set_at p v n) = v.
Proof. unfold set_at. by rewrite get_at_alter_at. Qed.

(** [set] on a location already set: only the last value stays. *)
Lemma set_at_overwrite p v v' n : set_at p v' (set_at p v n) = set_at p v' n.
Proof. unfold set_at. by rewrite alter_at_twice. Qed.

Lemma get_at_update_at p (values : gmap string value) n :
  get_at p (update_at p values n) = VObj (values ∪ children (get_at p n)).
Proof. unfold update_at. by rewrite get_at_alter_at. Qed.

(** A property named in the update reads back as given ... *)
Lemma child_update_at p (values : gmap string value) n k v :
  values !! k = Some v -> child (get_at p (update_at p values n)) k = v.
Proof.
  intros Hk. rewrite get_at_update_at. unfold child; simpl.
  by rewrite (lookup_union_Some_l _ _ _ _ Hk).
Qed.

(** ... and one not named in it keeps its value. *)
Lemma child_update_at_other p (values : gmap string value) n k :
  values !! k = None ->
  child (get_at p (update_at p values n)) k = child (get_at p n) k.
Proof.
  intros Hk. rewrite get_at_update_at. unfold child; simpl.
  by rewrite lookup_union_r.
Qed.

Lemma merge_idemp (values : gmap string value) n :
  merge values (merge values n) = merge values n.
Proof.
  unfold merge; simpl. f_equal.
  by rewrite (assoc_L (∪)), (idemp_L (∪)).
Qed.

(** The same [update] applied twice is the update applied once. *)
Lemma update_at_idemp p (values : gmap string value) n :
  update_at p values (update_at p values n) = update_at p values n.
Proof.
  unfold update_at. rewrite alter_at_twice.
  apply alter_at_ext. intros x. apply merge_idemp.
Qed.

(** The two collections live under different children of the root. *)
Lemma ref_reports (s : string) : ref ("reports/" +:+ s) = "reports" :: ref s.
Proof. reflexivity. Qed.

Lemma ref_users (s : string) : ref ("users/" +:+ s) = "users" :: ref s.
Proof. reflexivity. Qed.

End Tree.

(* ===================================================================== *)
(** ** How each operation runs, by the store's answers *)
(* ===================================================================== *)

Section Runs.

Implicit Types (st : State) (reportId userId currentStatus response : value).

Lemma toggle_accepted st reportId currentStatus response :
  verdict (next_reply (env st)) = Accepted ->
  toggleResolveStatus reportId currentStatus response st =
  (Normal tt,
   mkState (ui st)
     (settle (update_at (reportPath reportId)
                (toggled currentStatus response (clock (env st))))
             (env st))).
Proof.
  intros Hok.
  unfold toggleResolveStatus, try_catch, bind, Date_now, update, await_write.
  simpl. by rewrite Hok.
Qed.

Lemma toggle_rejected st reportId currentStatus response f :
  verdict (next_reply (env st)) = Rejected f ->
  toggleResolveStatus reportId currentStatus response st =
  (Normal tt,
   mkState
     (setError "Unable to update report status. Please check your permissions."
               (ui st))
     (logged "Error updating report status:" (FirebaseError f)
             (settle (fun d => d) (env st)))).
Proof.
  intros Hno.
  unfold toggleResolveStatus, try_catch, bind, Date_now, update, await_write.
  simpl. by rewrite Hno.
Qed.

Lemma notify_accepted st userId reportId response :
  verdict (next_reply (env st)) = Accepted ->
  sendNotificationToUser userId reportId response st =
  (Normal tt,
   mkState (ui st)
     (settle (set_at (notificationPath userId reportId)
                (notification reportId response (clock (env st))))
             (env st))).
Proof.
  intros Hok.
  unfold sendNotificationToUser, try_catch, bind, Date_now, set, await_write.
  simpl. by rewrite Hok.
Qed.

Lemma notify_rejected st userId reportId response f :
  verdict (next_reply (env st)) = Rejected f ->
  sendNotificationToUser userId reportId response st =
  (Throw (Error "Failed to send notification."),
   mkState (ui st)
     (logged "Error sending notification:" (FirebaseError f)
             (settle (fun d => d) (env st)))).
Proof.
  intros Hno.
  unfold sendNotificationToUser, try_catch, bind, Date_now, set, await_write.
  simpl. by rewrite Hno.
Qed.

Lemma block_accepted st userId :
  verdict (next_reply (env st)) = Accepted ->
  handleBlockUser userId st =
  (Normal tt,
   mkState (ui st)
     (alerted "User blocked successfully"
        (settle (update_at (userPath userId) {[ "blocked" := VBool true ]})
                (env st)))).
Proof.
  intros Hok.
  unfold handleBlockUser, try_catch, bind, update, await_write, alert.
  simpl. by rewrite Hok.
Qed.

End Runs.

(* ===================================================================== *)
(** ** The reports listener *)
(* ===================================================================== *)

Section ReportsListener.

Lemma reportsData_map (snapshot : DataSnapshot) :
  reportsData snapshot = List.map report_of snapshot.
Proof.
  unfold reportsData.
  induction snapshot as [|c snapshot IH] using rev_ind; [done|].
  by rewrite foldl_snoc, List.map_app, IH.
Qed.

(** The [id] of a materialized report is the payload's own [id] when it has
    one, and the collection key only otherwise. *)
Lemma report_of_id (key : string) (payload : value) :
  get (report_of (key, payload)) "id" =
  default (VStr key) (own_props payload !! "id").
Proof.
  unfold report_of, spread, get; simpl.
  rewrite lookup_union.
  destruct (own_props payload !! "id") as [x|]; simpl.
  - by rewrite lookup_singleton_eq.
  - by rewrite lookup_singleton_eq.
Qed.

(** A report whose payload has no field named id gets its collection key
    as id. *)
Lemma report_of_id_key (key : string) (payload : value) :
  own_props payload !! "id" = None ->
  get (report_of (key, payload)) "id" = VStr key.
Proof. intros Hnone. by rewrite report_of_id, Hnone. Qed.

(** C1: on the snapshot whose only child has key r2 and a payload with
    id = other, the listener stores a report whose id is other, not r2: the
    spread on line 60 comes after [id] and overwrites it. *)
Theorem reports_listener_payload_id_overrides_key :
  let snapshot := [("r2", Sample.bob)] in
  let st' := snd (onSnapshot ReportsListener snapshot (Sample.idle [])) in
  List.map (fun report => get report "id") (reports (ui st')) = [VStr "other"]
  /\ List.map fst snapshot = ["r2"].
Proof. split; reflexivity. Qed.

(** C5: a snapshot on the reports stream replaces the report list by the
    snapshot's records, one per child and in the snapshot's order, whatever
    the list held before, and sets [totalReports] to the length of the new
    list; the other two counters keep their values. *)
Theorem reports_snapshot_replaces_list_and_total
  (st : State) (snapshot : DataSnapshot) :
  let run := onSnapshot ReportsListener snapshot st in
  fst run = Normal tt
  /\ reports (ui (snd run)) = List.map report_of snapshot
  /\ totalReports (stats (ui (snd run))) = length snapshot
  /\ length (reports (ui (snd run))) = totalReports (stats (ui (snd run)))
  /\ totalUsers (stats (ui (snd run))) = totalUsers (stats (ui st))
  /\ resolvedReports (stats (ui (snd run))) = resolvedReports (stats (ui st)).
Proof.
  unfold onSnapshot, bind, render; simpl.
  rewrite reportsData_map, List.length_map. by repeat split.
Qed.

End ReportsListener.

(* ===================================================================== *)
(** ** Stream faults *)
(* ===================================================================== *)

(** C4: a fault on the reports stream sets the error slot, but a fault on
    the users stream or on the resolved-reports stream is only printed: the
    component state, error slot included, stays as it was. *)
Theorem only_reports_fault_sets_error (st : State) (err : exn) :
  error (ui (snd (deliver (Fails ReportsListener err) st))) =
    Some "Unable to fetch reports. Please check your permissions."
  /\ ui (snd (deliver (Fails UsersListener err) st)) = ui st
  /\ ui (snd (deliver (Fails ResolvedListener err) st)) = ui st
  /\ console (env (snd (deliver (Fails UsersListener err) st))) =
       console (env st) ++ [("Error fetching users:", err)]
  /\ console (env (snd (deliver (Fails ResolvedListener err) st))) =
       console (env st) ++ [("Error fetching resolved reports:", err)]
  /\ error (ui (snd (deliver (Fails UsersListener (FirebaseError PermissionDenied))
                       (Sample.idle [])))) = None.
Proof. by repeat split. Qed.

(* ===================================================================== *)
(** ** Step A: [toggleResolveStatus] *)
(* ===================================================================== *)

Section StepA.

Lemma toggled_status currentStatus response t :
  toggled currentStatus response t !! "status" =
  Some (VStr (if eq_str currentStatus "resolved" then "pending" else "resolved")).
Proof.
  unfold toggled. rewrite lookup_insert_eq. by destruct (eq_str _ _).
Qed.

Lemma toggled_response currentStatus response t :
  toggled currentStatus response t !! "response" = Some (or_else response (VStr "")).
Proof. unfold toggled. by rewrite lookup_insert_ne, lookup_insert_eq. Qed.

Lemma toggled_resolvedAt currentStatus response t :
  toggled currentStatus response t !! "resolvedAt" = Some (VNum t).
Proof.
  unfold toggled.
  by rewrite lookup_insert_ne, lookup_insert_ne, lookup_insert_eq.
Qed.

(** [response || ''] on a string, or on a missing argument. *)
Lemma or_empty_string (responseText : option string) :
  or_else (from_option VStr VUndefined responseText) (VStr "") =
  VStr (default "" responseText).
Proof.
  destruct responseText as [s|]; [|done].
  unfold or_else; simpl. by destruct (String.eqb_spec s "") as [->|].
Qed.

(** C3: when the store accepts the update of Step A, the record at
    reports/<reportId> gets status pending if [currentStatus] is resolved
    and resolved otherwise, whatever the response text; response is the
    given text, or the empty string when none is given; and resolvedAt is
    the time of the call, in both directions of the toggle.  The call
    returns normally and touches no component state. *)
Theorem toggle_accepted_flips_status_and_stamps
  (st : State) (reportId currentStatus : value) (responseText : option string) :
  verdict (next_reply (env st)) = Accepted ->
  let run := toggleResolveStatus reportId currentStatus
               (from_option VStr VUndefined responseText) st in
  let record :=
    get_at (ref ("reports/" +:+ to_string reportId)) (db (env (snd run))) in
  fst run = Normal tt
  /\ child record "status" =
       VStr (if eq_str currentStatus "resolved" then "pending" else "resolved")
  /\ child record "response" = VStr (default "" responseText)
  /\ child record "resolvedAt" = VNum (clock (env st))
  /\ ui (snd run) = ui st.
Proof.
  intros Hok. cbv zeta. rewrite (toggle_accepted _ _ _ _ Hok).
  cbn [fst snd env ui db settle].
  change (ref ("reports/" +:+ to_string reportId)) with (reportPath reportId).
  repeat split.
  - apply child_update_at, toggled_status.
  - rewrite <- or_empty_string. apply child_update_at, toggled_response.
  - apply child_update_at, toggled_resolvedAt.
Qed.

(** The update is a merge: every other field of the report stays. *)
Lemma toggle_accepted_keeps_other_fields
  (st : State) (reportId currentStatus response : value) (k : string) :
  verdict (next_reply (env st)) = Accepted ->
  k <> "status" -> k <> "response" -> k <> "resolvedAt" ->
  let run := toggleResolveStatus reportId currentStatus response st in
  child (get_at (reportPath reportId) (db (env (snd run)))) k =
  child (get_at (reportPath reportId) (db (env st))) k.
Proof.
  intros Hok H1 H2 H3. cbv zeta. rewrite (toggle_accepted _ _ _ _ Hok).
  cbn [fst snd env ui db settle].
  apply child_update_at_other. unfold toggled.
  by rewrite !lookup_insert_ne, lookup_empty.
Qed.

Lemma toggle_accepted_flips_status_and_stamps_witness :
  verdict (next_reply (env (Sample.idle []))) = Accepted
  /\ child (get_at (ref "reports/r1")
              (db (env (snd (toggleResolveStatus (VStr "r1") (VStr "pending")
                               (VStr "We are on it") (Sample.idle []))))))
           "status" = VStr "resolved"
  /\ child (get_at (ref "reports/r1")
              (db (env (snd (toggleResolveStatus (VStr "r1") (VStr "resolved")
                               VUndefined (Sample.idle []))))))
           "resolvedAt" = VNum 1700000001000.
Proof.
  split; [reflexivity|]. split.
  - exact (proj1 (proj2 (toggle_accepted_flips_status_and_stamps
             (Sample.idle []) (VStr "r1") (VStr "pending")
             (Some "We are on it") eq_refl))).
  - exact (proj1 (proj2 (proj2 (proj2 (toggle_accepted_flips_status_and_stamps
             (Sample.idle []) (VStr "r1") (VStr "resolved")
             None eq_refl))))).
Defined.

End StepA.

(* ===================================================================== *)
(** ** Step B: [sendNotificationToUser] *)
(* ===================================================================== *)

Section StepB.

(** C9: when the store accepts the write of Step B, the location
    users/<userId>/notifications/<reportId> holds a record whose message
    names the report id, whose response is the given text, whose createdAt
    is the time of the call and whose read flag is false.  Sending again for
    the same user and report leaves the tree as one write of the later
    record onto the original tree would: the earlier record is replaced. *)
Theorem notification_written_at_key_and_overwritten
  (st : State) (userId reportId response response' : value) :
  verdict (next_reply (env st)) = Accepted ->
  verdict (remote (env st) (S (calls (env st)))) = Accepted ->
  let key :=
    ref ("users/" +:+ to_string userId +:+ "/notifications/"
         +:+ to_string reportId) in
  let run := sendNotificationToUser userId reportId response st in
  let rerun := sendNotificationToUser userId reportId response' (snd run) in
  let written := get_at key (db (env (snd run))) in
  fst run = Normal tt
  /\ child written "type" = VStr "report_response"
  /\ child written "message" =
       VStr ("Your report (ID: " +:+ to_string reportId
             +:+ ") has been responded to.")
  /\ child written "response" = response
  /\ child written "createdAt" = VNum (clock (env st))
  /\ child written "read" = VBool false
  /\ fst rerun = Normal tt
  /\ db (env (snd rerun)) =
       set_at key (notification reportId response' (clock (env (snd run))))
              (db (env st))
  /\ child (get_at key (db (env (snd rerun)))) "response" = response'.
Proof.
  intros Hok Hok'. cbv zeta.
  rewrite (notify_accepted _ _ _ _ Hok). cbn [fst snd env ui db settle].
  rewrite notify_accepted by exact Hok'. cbn [fst snd env ui db settle clock].
  change (ref ("users/" +:+ to_string userId +:+ "/notifications/"
               +:+ to_string reportId))
    with (notificationPath userId reportId).
  rewrite set_at_overwrite, !get_at_set_at.
  by repeat split.
Qed.

Lemma notification_written_at_key_and_overwritten_witness :
  verdict (next_reply (env (Sample.idle []))) = Accepted
  /\ get_at (ref "users/u1/notifications/r1")
       (db (env (snd (sendNotificationToUser (VStr "u1") (VStr "r1")
                        (VStr "We are on it") (Sample.idle []))))) =
     notification (VStr "r1") (VStr "We are on it") 1700000001000
  /\ child (get_at (ref "users/u1/notifications/r1")
       (db (env (snd (sendNotificationToUser (VStr "u1") (VStr "r1")
                        (VStr "We are on it") (Sample.idle []))))))
       "read" = VBool false.
Proof.
  split; [reflexivity|]. split; [reflexivity|].
  exact (proj1 (proj2 (proj2 (proj2 (proj2 (proj2
    (notification_written_at_key_and_overwritten
       (Sample.idle []) (VStr "u1") (VStr "r1") (VStr "We are on it")
       (VStr "Closed") eq_refl eq_refl))))))).
Defined.

End StepB.

(* ===================================================================== *)
(** ** The resolution workflow: [handleResponseSubmit] *)
(* ===================================================================== *)

Section Workflow.

Implicit Types (st : State) (selected : Report) (f : Fault).

Ltac enter_submit Hsel :=
  unfold handleResponseSubmit; rewrite Hsel; unfold try_catch, bind.

Lemma submit_both_accepted st selected :
  selectedReport (ui st) = Some selected ->
  verdict (next_reply (env st)) = Accepted ->
  verdict (remote (env st) (S (calls (env st)))) = Accepted ->
  handleResponseSubmit st =
  (Normal tt,
   mkState
     (setResponseText (VStr "") (setSelectedReport None (ui st)))
     (settle
        (set_at (notificationPath (get selected "userId") (get selected "id"))
           (notification (get selected "id") (responseText (ui st))
              (clock (env st) + elapsed (next_reply (env st)))))
        (settle
           (update_at (reportPath (get selected "id"))
              (toggled (get selected "status") (responseText (ui st))
                       (clock (env st))))
           (env st)))).
Proof.
  intros Hsel HA HB. enter_submit Hsel.
  rewrite (toggle_accepted _ _ _ _ HA). cbv beta iota.
  rewrite notify_accepted by exact HB. reflexivity.
Qed.

Lemma submit_notify_rejected st selected f :
  selectedReport (ui st) = Some selected ->
  verdict (next_reply (env st)) = Accepted ->
  verdict (remote (env st) (S (calls (env st)))) = Rejected f ->
  handleResponseSubmit st =
  (Normal tt,
   mkState
     (setError "Failed to submit response. Please try again." (ui st))
     (logged "Error submitting response:" (Error "Failed to send notification.")
        (logged "Error sending notification:" (FirebaseError f)
           (settle (fun d => d)
              (settle
                 (update_at (reportPath (get selected "id"))
                    (toggled (get selected "status") (responseText (ui st))
                             (clock (env st))))
                 (env st)))))).
Proof.
  intros Hsel HA HB. enter_submit Hsel.
  rewrite (toggle_accepted _ _ _ _ HA). cbv beta iota.
  rewrite (notify_rejected _ _ _ _ f) by exact HB. reflexivity.
Qed.

(** Both steps accepted: the report carries the toggled fields, the
    notification is in place, and the dialog is reset with no error set. *)
Lemma submit_both_accepted_outcome st selected :
  selectedReport (ui st) = Some selected ->
  verdict (next_reply (env st)) = Accepted ->
  verdict (remote (env st) (S (calls (env st)))) = Accepted ->
  let run := handleResponseSubmit st in
  let record := get_at (reportPath (get selected "id")) (db (env (snd run))) in
  child record "status" =
    VStr (if eq_str (get selected "status") "resolved"
          then "pending" else "resolved")
  /\ child record "response" = or_else (responseText (ui st)) (VStr "")
  /\ child record "resolvedAt" = VNum (clock (env st))
  /\ get_at (notificationPath (get selected "userId") (get selected "id"))
            (db (env (snd run))) =
       notification (get selected "id") (responseText (ui st))
         (clock (env st) + elapsed (next_reply (env st)))
  /\ selectedReport (ui (snd run)) = None
  /\ responseText (ui (snd run)) = VStr ""
  /\ error (ui (snd run)) = error (ui st).
Proof.
  intros Hsel HA HB. cbv zeta.
  rewrite (submit_both_accepted _ _ Hsel HA HB).
  cbn [fst snd env ui db settle].
  rewrite get_at_set_at.
  assert (Hframe : forall v n,
    get_at (reportPath (get selected "id"))
      (set_at (notificationPath (get selected "userId") (get selected "id")) v n)
    = get_at (reportPath (get selected "id")) n).
  { intros v n. unfold reportPath, notificationPath, set_at.
    rewrite ref_reports, ref_users. by apply get_at_alter_at_other. }
  rewrite Hframe.
  split; [apply child_update_at, toggled_status|].
  split; [apply child_update_at, toggled_response|].
  split; [apply child_update_at, toggled_resolvedAt|].
  by repeat split.
Qed.

(** Step A rejected, Step B accepted: [toggleResolveStatus] has caught the
    rejection itself, so the workflow goes on, writes the notification and
    closes the dialog. *)
Lemma submit_toggle_rejected st selected f :
  selectedReport (ui st) = Some selected ->
  verdict (next_reply (env st)) = Rejected f ->
  verdict (remote (env st) (S (calls (env st)))) = Accepted ->
  handleResponseSubmit st =
  (Normal tt,
   mkState
     (setResponseText (VStr "")
        (setSelectedReport None
           (setError
              "Unable to update report status. Please check your permissions."
              (ui st))))
     (settle
        (set_at (notificationPath (get selected "userId") (get selected "id"))
           (notification (get selected "id") (responseText (ui st))
              (clock (env st) + elapsed (next_reply (env st)))))
        (logged "Error updating report status:" (FirebaseError f)
           (settle (fun d => d) (env st))))).
Proof.
  intros Hsel HA HB. enter_submit Hsel.
  rewrite (toggle_rejected _ _ _ _ f HA). cbv beta iota.
  rewrite notify_accepted by exact HB. reflexivity.
Qed.

(** C2: the operator is replying to report r1 of user u1 and the store
    rejects the update of Step A with a permission fault, then accepts the
    next call.  The report is left as it was, and yet the notification is
    written at users/u1/notifications/r1 and the dialog is closed as after
    a success: Step A's rejection does not stop the workflow. *)
Theorem rejected_toggle_still_writes_notification :
  let st := Sample.replying [Rejected PermissionDenied] in
  let run := handleResponseSubmit st in
  verdict (next_reply (env st)) = Rejected PermissionDenied
  /\ get_at (ref "reports/r1") (db (env (snd run))) = Sample.ann
  /\ get_at (ref "users/u1/notifications/r1") (db (env st)) = VNull
  /\ get_at (ref "users/u1/notifications/r1") (db (env (snd run))) =
       notification (VStr "r1") (VStr "We are on it") 1700000001007
  /\ selectedReport (ui (snd run)) = None
  /\ error (ui (snd run)) =
       Some "Unable to update report status. Please check your permissions.".
Proof. repeat split; reflexivity. Qed.

(** C6: when the store accepts Step A and rejects the write of Step B, the
    workflow returns normally; the tree is the one Step A left, so the
    report keeps its new status and response; the error slot holds the
    failure message and the handler has logged the error thrown by
    [sendNotificationToUser]; the dialog stays open with its draft.  The
    resulting component state differs from that of any run in which both
    steps are accepted. *)
Theorem notification_failure_keeps_step_a_and_is_surfaced
  (st : State) (selected : Report) (f : Fault) :
  selectedReport (ui st) = Some selected ->
  verdict (next_reply (env st)) = Accepted ->
  verdict (remote (env st) (S (calls (env st)))) = Rejected f ->
  let run := handleResponseSubmit st in
  let location := ref ("reports/" +:+ to_string (get selected "id")) in
  let record := get_at location (db (env (snd run))) in
  fst run = Normal tt
  /\ db (env (snd run)) =
       update_at location
         (toggled (get selected "status") (responseText (ui st)) (clock (env st)))
         (db (env st))
  /\ child record "status" =
       VStr (if eq_str (get selected "status") "resolved"
             then "pending" else "resolved")
  /\ child record "response" = or_else (responseText (ui st)) (VStr "")
  /\ error (ui (snd run)) = Some "Failed to submit response. Please try again."
  /\ last (console (env (snd run))) =
       Some ("Error submitting response:", Error "Failed to send notification.")
  /\ selectedReport (ui (snd run)) = Some selected
  /\ responseText (ui (snd run)) = responseText (ui st)
  /\ forall (st_ok : State) (selected_ok : Report),
       selectedReport (ui st_ok) = Some selected_ok ->
       verdict (next_reply (env st_ok)) = Accepted ->
       verdict (remote (env st_ok) (S (calls (env st_ok)))) = Accepted ->
       ui (snd (handleResponseSubmit st_ok)) <> ui (snd run).
Proof.
  intros Hsel HA HB. cbv zeta.
  rewrite (submit_notify_rejected _ _ f Hsel HA HB).
  cbn [fst snd env ui db settle logged console].
  change (ref ("reports/" +:+ to_string (get selected "id")))
    with (reportPath (get selected "id")).
  split; [done|]. split; [done|].
  split; [apply child_update_at, toggled_status|].
  split; [apply child_update_at, toggled_response|].
  split; [done|].
  split; [by rewrite last_snoc|].
  split; [done|]. split; [done|].
  intros st_ok selected_ok Hsel_ok HA_ok HB_ok Heq.
  rewrite (submit_both_accepted _ _ Hsel_ok HA_ok HB_ok) in Heq.
  apply (f_equal selectedReport) in Heq. simpl in Heq.
  rewrite Hsel in Heq. discriminate.
Qed.

Lemma notification_failure_keeps_step_a_and_is_surfaced_witness :
  let st := Sample.replying [Accepted; Rejected Disconnected] in
  selectedReport (ui st) = Some (report_of ("r1", Sample.ann))
  /\ verdict (next_reply (env st)) = Accepted
  /\ verdict (remote (env st) (S (calls (env st)))) = Rejected Disconnected
  /\ child (get_at (ref "reports/r1") (db (env (snd (handleResponseSubmit st)))))
           "status" = VStr "resolved"
  /\ get_at (ref "users/u1/notifications/r1")
            (db (env (snd (handleResponseSubmit st)))) = VNull
  /\ error (ui (snd (handleResponseSubmit st))) =
       Some "Failed to submit response. Please try again.".
Proof.
  cbv zeta.
  split; [reflexivity|]. split; [reflexivity|]. split; [reflexivity|].
  pose proof (notification_failure_keeps_step_a_and_is_surfaced
                (Sample.replying [Accepted; Rejected Disconnected])
                (report_of ("r1", Sample.ann)) Disconnected
                eq_refl eq_refl eq_refl) as H.
  cbv zeta in H.
  split; [exact (proj1 (proj2 (proj2 H)))|].
  split; [reflexivity|].
  exact (proj1 (proj2 (proj2 (proj2 (proj2 H))))).
Defined.

(** C10: with no report selected, submitting does nothing at all: the call
    returns normally and the whole state is the one it started from, so no
    remote call was made, nothing was written or logged, no error was set,
    and the selection, the draft and the projection are unchanged. *)
Theorem submit_without_selection_is_noop (st : State) :
  selectedReport (ui st) = None ->
  handleResponseSubmit st = (Normal tt, st).
Proof. intros Hsel. unfold handleResponseSubmit. by rewrite Hsel. Qed.

Lemma submit_without_selection_is_noop_witness :
  selectedReport (ui (Sample.idle [])) = None
  /\ handleResponseSubmit (Sample.idle []) = (Normal tt, Sample.idle []).
Proof.
  split; [reflexivity|].
  apply (submit_without_selection_is_noop (Sample.idle [])). reflexivity.
Defined.

End Workflow.

(* ===================================================================== *)
(** ** Moderation: [handleBlockUser] *)
(* ===================================================================== *)

Section Moderation.

(** C8: when the store accepts both calls, blocking a user sets blocked to
    true on the record at users/<userId>, and blocking the same user again
    returns normally, leaves the tree exactly as the first call left it,
    with blocked still true, and sets no error and logs nothing. *)
Theorem block_user_twice_same_as_once (st : State) (userId : value) :
  verdict (next_reply (env st)) = Accepted ->
  verdict (remote (env st) (S (calls (env st)))) = Accepted ->
  let once := handleBlockUser userId st in
  let twice := handleBlockUser userId (snd once) in
  let location := ref ("users/" +:+ to_string userId) in
  fst once = Normal tt
  /\ child (get_at location (db (env (snd once)))) "blocked" = VBool true
  /\ fst twice = Normal tt
  /\ db (env (snd twice)) = db (env (snd once))
  /\ child (get_at location (db (env (snd twice)))) "blocked" = VBool true
  /\ ui (snd twice) = ui st
  /\ console (env (snd twice)) = console (env st).
Proof.
  intros Hok Hok'. cbv zeta.
  rewrite (block_accepted _ _ Hok). cbn [fst snd].
  rewrite block_accepted by exact Hok'.
  cbn [fst snd env ui db settle alerted console].
  change (ref ("users/" +:+ to_string userId)) with (userPath userId).
  rewrite update_at_idemp.
  split; [done|].
  split; [by apply child_update_at, lookup_singleton_eq|].
  split; [done|]. split; [done|].
  split; [by apply child_update_at, lookup_singleton_eq|].
  by split.
Qed.

Lemma block_user_twice_same_as_once_witness :
  let st := Sample.idle [] in
  verdict (next_reply (env st)) = Accepted
  /\ verdict (remote (env st) (S (calls (env st)))) = Accepted
  /\ child (get_at (ref "users/u1") (db (env (snd (handleBlockUser (VStr "u1") st)))))
           "blocked" = VBool true
  /\ db (env (snd (handleBlockUser (VStr "u1")
                     (snd (handleBlockUser (VStr "u1") st))))) =
     db (env (snd (handleBlockUser (VStr "u1") st))).
Proof.
  cbv zeta. split; [reflexivity|]. split; [reflexivity|].
  pose proof (block_user_twice_same_as_once (Sample.idle []) (VStr "u1")
                eq_refl eq_refl) as H.
  cbv zeta in H.
  split; [exact (proj1 (proj2 H))|].
  exact (proj1 (proj2 (proj2 (proj2 H)))).
Defined.

End Moderation.

(* ===================================================================== *)
(** ** The community chart *)
(* ===================================================================== *)

Section CommunityChart.

Lemma isCommunity_spec (report : Report) :
  isCommunity report = true <-> report !! "matterType" = Some (VStr "Community").
Proof.
  unfold isCommunity, get.
  destruct (report !! "matterType") as [[| |b|n|s|m]|]; simpl;
    try (split; [discriminate | intros [=]]).
  rewrite String.eqb_eq. split; [by intros -> | by intros [= ->]].
Qed.

Lemma communityChartData_cons (report : Report) (rest : list Report) :
  communityChartData (report :: rest) =
  if isCommunity report
  then Chart.mk (get report "name") 1 :: communityChartData rest
  else communityChartData rest.
Proof. unfold communityChartData; simpl. by destruct (isCommunity report). Qed.

Lemma communityChartData_ChartOf (reports : list Report) :
  ChartOf reports (communityChartData reports).
Proof.
  induction reports as [|report rest IH]; [constructor|].
  rewrite communityChartData_cons.
  destruct (isCommunity report) eqn:Hc.
  - apply ChartOf_bar; [by apply isCommunity_spec | exact IH].
  - apply ChartOf_skip; [|exact IH].
    intros Hm. apply isCommunity_spec in Hm. congruence.
Qed.

Lemma ChartOf_communityChartData (reports : list Report) (bars : list Chart.entry) :
  ChartOf reports bars -> bars = communityChartData reports.
Proof.
  induction 1 as [|report rest bars Hm _ IH|report rest bars Hm _ IH];
    [done| |]; rewrite communityChartData_cons.
  - apply isCommunity_spec in Hm. rewrite Hm. by f_equal.
  - destruct (isCommunity report) eqn:Hc; [|exact IH].
    apply isCommunity_spec in Hc. contradiction.
Qed.

(** C7: the chart data is a function of the report list alone.  It is the
    list the specification describes: one bar, of weight one and carrying
    the report's name, for each report whose matterType is Community, in
    the order of the report list.  There are as many bars as such reports,
    so reports that share a name keep a bar each. *)
Theorem community_chart_one_bar_per_community_report (reports : list Report) :
  (forall bars, ChartOf reports bars <-> bars = communityChartData reports)
  /\ length (communityChartData reports) =
       length (List.filter isCommunity reports)
  /\ List.map Chart.name (communityChartData reports) =
       List.map (fun report => get report "name") (List.filter isCommunity reports)
  /\ Forall (fun bar => Chart.reports bar = 1%Z) (communityChartData reports)
  /\ (forall report, In report (List.filter isCommunity reports) <->
        In report reports /\ report !! "matterType" = Some (VStr "Community")).
Proof.
  split; [|split; [|split; [|split]]].
  - intros bars. split; [apply ChartOf_communityChartData|].
    intros ->. apply communityChartData_ChartOf.
  - unfold communityChartData. by rewrite List.length_map.
  - unfold communityChartData. rewrite List.map_map. reflexivity.
  - unfold communityChartData. apply Forall_forall.
    intros bar Hbar. apply list_elem_of_In, List.in_map_iff in Hbar.
    by destruct Hbar as (report & <- & _).
  - intros report. rewrite List.filter_In, isCommunity_spec. reflexivity.
Qed.

End CommunityChart.

(* ===================================================================== *)
(** ** The scenario of the specification, run on the model *)
(* ===================================================================== *)

Section Scenario.

(** Two Community reports under one name and a Legal one between them. *)
Example chart_keeps_same_name_bars_apart :
  communityChartData
    [ report_of ("A", VObj (<["name" := VStr "Ann"]>
                            (<["matterType" := VStr "Community"]> ∅)));
      report_of ("B", VObj (<["name" := VStr "Bob"]>
                            (<["matterType" := VStr "Legal"]> ∅)));
      report_of ("C", VObj (<["name" := VStr "Ann"]>
                            (<["matterType" := VStr "Community"]> ∅))) ]
  = [ Chart.mk (VStr "Ann") 1; Chart.mk (VStr "Ann") 1 ].
Proof. reflexivity. Qed.

(** Three reports and two users arriving on the three streams, the
    resolved count first and the users last, give the counts 3, 1 and 2. *)
Example three_reports_two_users :
  let all := [("A", Sample.ann); ("B", Sample.bob); ("C", Sample.ann)] in
  let users := [("u1", VObj ∅); ("u2", VObj (<["blocked" := VBool true]> ∅))] in
  let run :=
    (deliver (Emits ResolvedListener [("B", Sample.bob)]) ;;
     deliver (Emits ReportsListener all) ;;
     deliver (Emits UsersListener users)) (Sample.idle []) in
  stats (ui (snd run)) =
    {| totalUsers := 2; totalReports := 3; resolvedReports := 1 |}
  /\ length (communityChartData (reports (ui (snd run)))) = 2.
Proof. split; reflexivity. Qed.

(** A full round on report r1: accepted toggle, accepted notification. *)
Example submit_round_trip :
  let run := handleResponseSubmit (Sample.replying []) in
  child (get_at (ref "reports/r1") (db (env (snd run)))) "status" = VStr "resolved"
  /\ child (get_at (ref "users/u1/notifications/r1") (db (env (snd run))))
           "response" = VStr "We are on it"
  /\ selectedReport (ui (snd run)) = None
  /\ responseText (ui (snd run)) = VStr ""
  /\ error (ui (snd run)) = None.
Proof. repeat split; reflexivity. Qed.

End Scenario.

(* ===================================================================== *)
(** ** Rejected calls *)
(* ===================================================================== *)

Section Rejections.

Implicit Types (st : State) (reportId userId currentStatus response : value)
               (f : Fault).

Lemma block_rejected st userId f :
  verdict (next_reply (env st)) = Rejected f ->
  handleBlockUser userId st =
  (Normal tt,
   mkState
     (setError "Unable to block user. Please check your permissions." (ui st))
     (logged "Error blocking user:" (FirebaseError f)
             (settle (fun d => d) (env st)))).
Proof.
  intros Hno.
  unfold handleBlockUser, try_catch, bind, update, await_write, alert.
  simpl. by rewrite Hno.
Qed.

Lemma submit_both_rejected st (selected : Report) f f' :
  selectedReport (ui st) = Some selected ->
  verdict (next_reply (env st)) = Rejected f ->
  verdict (remote (env st) (S (calls (env st)))) = Rejected f' ->
  handleResponseSubmit st =
  (Normal tt,
   mkState
     (setError "Failed to submit response. Please try again."
        (setError
           "Unable to update report status. Please check your permissions."
           (ui st)))
     (logged "Error submitting response:" (Error "Failed to send notification.")
        (logged "Error sending notification:" (FirebaseError f')
           (settle (fun d => d)
              (logged "Error updating report status:" (FirebaseError f)
                 (settle (fun d => d) (env st))))))).
Proof.
  intros Hsel HA HB.
  unfold handleResponseSubmit; rewrite Hsel; unfold try_catch, bind.
  rewrite (toggle_rejected _ _ _ _ f HA). cbv beta iota.
  rewrite (notify_rejected _ _ _ _ f') by exact HB. reflexivity.
Qed.

(** X1: a rejected update in [toggleResolveStatus] is caught: the call
    returns normally, the tree is untouched, the error slot gets the
    status message, the fault is printed, and the projection, the selection
    and the draft stay as they were. *)
Theorem toggle_rejected_sets_error_and_writes_nothing
  st reportId currentStatus response f :
  verdict (next_reply (env st)) = Rejected f ->
  let run := toggleResolveStatus reportId currentStatus response st in
  fst run = Normal tt
  /\ db (env (snd run)) = db (env st)
  /\ error (ui (snd run)) =
       Some "Unable to update report status. Please check your permissions."
  /\ console (env (snd run)) =
       console (env st) ++ [("Error updating report status:", FirebaseError f)]
  /\ projection (ui (snd run)) = projection (ui st)
  /\ selectedReport (ui (snd run)) = selectedReport (ui st)
  /\ responseText (ui (snd run)) = responseText (ui st).
Proof.
  intros Hno. cbv zeta. rewrite (toggle_rejected _ _ _ _ f Hno).
  by repeat split.
Qed.

Lemma toggle_rejected_sets_error_and_writes_nothing_witness :
  let st := Sample.idle [Rejected PermissionDenied] in
  verdict (next_reply (env st)) = Rejected PermissionDenied
  /\ db (env (snd (toggleResolveStatus (VStr "r1") (VStr "pending")
                     (VStr "Done") st))) = Sample.tree.
Proof.
  cbv zeta. split; [reflexivity|].
  exact (proj1 (proj2 (toggle_rejected_sets_error_and_writes_nothing
    (Sample.idle [Rejected PermissionDenied]) (VStr "r1") (VStr "pending")
    (VStr "Done") PermissionDenied eq_refl))).
Defined.

(** X2: a rejected write in [sendNotificationToUser] is printed and then
    rethrown as a new error with the fixed message; the tree and the whole
    component state, error slot included, are untouched by this function. *)
Theorem notify_rejected_throws_and_writes_nothing
  st userId reportId response f :
  verdict (next_reply (env st)) = Rejected f ->
  let run := sendNotificationToUser userId reportId response st in
  fst run = Throw (Error "Failed to send notification.")
  /\ db (env (snd run)) = db (env st)
  /\ ui (snd run) = ui st
  /\ console (env (snd run)) =
       console (env st) ++ [("Error sending notification:", FirebaseError f)].
Proof.
  intros Hno. cbv zeta. rewrite (notify_rejected _ _ _ _ f Hno).
  by repeat split.
Qed.

Lemma notify_rejected_throws_and_writes_nothing_witness :
  let st := Sample.idle [Rejected Disconnected] in
  verdict (next_reply (env st)) = Rejected Disconnected
  /\ fst (sendNotificationToUser (VStr "u1") (VStr "r1") (VStr "Done") st) =
     Throw (Error "Failed to send notification.").
Proof.
  cbv zeta. split; [reflexivity|].
  exact (proj1 (notify_rejected_throws_and_writes_nothing
    (Sample.idle [Rejected Disconnected]) (VStr "u1") (VStr "r1")
    (VStr "Done") Disconnected eq_refl)).
Defined.

(** X3: a rejected update in [handleBlockUser] is caught: the call returns
    normally, the tree is untouched, no success alert is shown, the error
    slot gets the blocking message and the fault is printed. *)
Theorem block_rejected_sets_error_and_writes_nothing st userId f :
  verdict (next_reply (env st)) = Rejected f ->
  let run := handleBlockUser userId st in
  fst run = Normal tt
  /\ db (env (snd run)) = db (env st)
  /\ alerts (env (snd run)) = alerts (env st)
  /\ error (ui (snd run)) =
       Some "Unable to block user. Please check your permissions."
  /\ console (env (snd run)) =
       console (env st) ++ [("Error blocking user:", FirebaseError f)]
  /\ projection (ui (snd run)) = projection (ui st)
  /\ selectedReport (ui (snd run)) = selectedReport (ui st).
Proof.
  intros Hno. cbv zeta. rewrite (block_rejected _ _ f Hno).
  by repeat split.
Qed.

Lemma block_rejected_sets_error_and_writes_nothing_witness :
  let st := Sample.replying [Rejected PermissionDenied] in
  verdict (next_reply (env st)) = Rejected PermissionDenied
  /\ alerts (env (snd (handleBlockUser (VStr "u1") st))) = []
  /\ error (ui (snd (handleBlockUser (VStr "u1") st))) =
       Some "Unable to block user. Please check your permissions.".
Proof.
  cbv zeta. split; [reflexivity|].
  pose proof (block_rejected_sets_error_and_writes_nothing
    (Sample.replying [Rejected PermissionDenied]) (VStr "u1")
    PermissionDenied eq_refl) as H.
  cbv zeta in H.
  split; [exact (proj1 (proj2 (proj2 H)))|].
  exact (proj1 (proj2 (proj2 (proj2 H)))).
Defined.

(** X4: when the store rejects both steps of a submit, nothing is written,
    the selection and the draft are kept, the three failures are printed in
    the order they happened, and the error slot ends with the submit
    message: the later [setError] replaces the one of Step A. *)
Theorem submit_both_rejected_latest_error_wins
  st (selected : Report) f f' :
  selectedReport (ui st) = Some selected ->
  verdict (next_reply (env st)) = Rejected f ->
  verdict (remote (env st) (S (calls (env st)))) = Rejected f' ->
  let run := handleResponseSubmit st in
  fst run = Normal tt
  /\ db (env (snd run)) = db (env st)
  /\ error (ui (snd run)) = Some "Failed to submit response. Please try again."
  /\ console (env (snd run)) =
       console (env st) ++
       [("Error updating report status:", FirebaseError f);
        ("Error sending notification:", FirebaseError f');
        ("Error submitting response:", Error "Failed to send notification.")]
  /\ selectedReport (ui (snd run)) = Some selected
  /\ responseText (ui (snd run)) = responseText (ui st).
Proof.
  intros Hsel HA HB. cbv zeta.
  rewrite (submit_both_rejected _ _ f f' Hsel HA HB).
  cbn [fst snd env ui db settle logged console].
  rewrite <- !(assoc_L (++)). by repeat split.
Qed.

Lemma submit_both_rejected_latest_error_wins_witness :
  let st := Sample.replying [Rejected PermissionDenied; Rejected Disconnected] in
  selectedReport (ui st) = Some (report_of ("r1", Sample.ann))
  /\ verdict (next_reply (env st)) = Rejected PermissionDenied
  /\ verdict (remote (env st) (S (calls (env st)))) = Rejected Disconnected
  /\ error (ui (snd (handleResponseSubmit st))) =
       Some "Failed to submit response. Please try again.".
Proof.
  cbv zeta. split; [reflexivity|]. split; [reflexivity|].
  split; [reflexivity|].
  exact (proj1 (proj2 (proj2 (submit_both_rejected_latest_error_wins
    (Sample.replying [Rejected PermissionDenied; Rejected Disconnected])
    (report_of ("r1", Sample.ann)) PermissionDenied Disconnected
    eq_refl eq_refl eq_refl)))).
Defined.

End Rejections.

(* ===================================================================== *)
(** ** What the writes create and what they leave alone *)
(* ===================================================================== *)

Section Writes.

Implicit Types (st : State) (reportId userId currentStatus response : value).

Lemma child_alter_at_other (f : value -> value) k (p : Path) k' (n : value) :
  k <> k' -> child (alter_at f (k :: p) n) k' = child n k'.
Proof. intros Hne. simpl. by rewrite child_insert_ne. Qed.

(** X5: [toggleResolveStatus] does not check that the report exists.  When
    the location reports/<reportId> holds no record, an accepted call
    creates one there that has the three written fields and nothing else,
    so it has no name, no matterType and no userId. *)
Theorem toggle_on_missing_report_creates_partial_record
  st reportId currentStatus response :
  verdict (next_reply (env st)) = Accepted ->
  children (get_at (ref ("reports/" +:+ to_string reportId)) (db (env st))) = ∅ ->
  let run := toggleResolveStatus reportId currentStatus response st in
  let record :=
    get_at (ref ("reports/" +:+ to_string reportId)) (db (env (snd run))) in
  record =
    VObj (<["status" := if eq_str currentStatus "resolved"
                        then VStr "pending" else VStr "resolved"]>
          (<["response" := or_else response (VStr "")]>
           (<["resolvedAt" := VNum (clock (env st))]> ∅)))
  /\ child record "name" = VNull
  /\ child record "matterType" = VNull
  /\ child record "userId" = VNull.
Proof.
  intros Hok Hnone. cbv zeta. rewrite (toggle_accepted _ _ _ _ Hok).
  cbn [fst snd env ui db settle].
  change (ref ("reports/" +:+ to_string reportId)) with (reportPath reportId)
    in *.
  rewrite get_at_update_at, Hnone, (right_id_L ∅ (∪)).
  by repeat split.
Qed.

Lemma toggle_on_missing_report_creates_partial_record_witness :
  let st := Sample.idle [] in
  verdict (next_reply (env st)) = Accepted
  /\ children (get_at (ref "reports/nowhere") (db (env st))) = ∅
  /\ child (get_at (ref "reports/nowhere")
              (db (env (snd (toggleResolveStatus (VStr "nowhere") VUndefined
                               VUndefined st)))))
           "status" = VStr "resolved"
  /\ child (get_at (ref "reports/nowhere")
              (db (env (snd (toggleResolveStatus (VStr "nowhere") VUndefined
                               VUndefined st)))))
           "name" = VNull.
Proof.
  cbv zeta. split; [reflexivity|]. split; [reflexivity|].
  split; [reflexivity|].
  exact (proj1 (proj2 (toggle_on_missing_report_creates_partial_record
    (Sample.idle []) (VStr "nowhere") VUndefined VUndefined
    eq_refl eq_refl))).
Defined.

(** X6: [handleBlockUser] does not check that the user exists.  When the
    location users/<userId> holds no record, an accepted call creates one
    there whose only field is blocked = true, and reports success. *)
Theorem block_on_missing_user_creates_record st userId :
  verdict (next_reply (env st)) = Accepted ->
  children (get_at (ref ("users/" +:+ to_string userId)) (db (env st))) = ∅ ->
  let run := handleBlockUser userId st in
  get_at (ref ("users/" +:+ to_string userId)) (db (env (snd run))) =
    VObj {[ "blocked" := VBool true ]}
  /\ alerts (env (snd run)) = alerts (env st) ++ ["User blocked successfully"]
  /\ error (ui (snd run)) = error (ui st).
Proof.
  intros Hok Hnone. cbv zeta. rewrite (block_accepted _ _ Hok).
  cbn [fst snd env ui db settle alerted alerts].
  change (ref ("users/" +:+ to_string userId)) with (userPath userId) in *.
  rewrite get_at_update_at, Hnone, (right_id_L ∅ (∪)).
  by repeat split.
Qed.

Lemma block_on_missing_user_creates_record_witness :
  let st := Sample.idle [] in
  verdict (next_reply (env st)) = Accepted
  /\ children (get_at (ref "users/nobody") (db (env st))) = ∅
  /\ get_at (ref "users/nobody")
       (db (env (snd (handleBlockUser (VStr "nobody") st)))) =
     VObj {[ "blocked" := VBool true ]}.
Proof.
  cbv zeta. split; [reflexivity|]. split; [reflexivity|].
  exact (proj1 (block_on_missing_user_creates_record
    (Sample.idle []) (VStr "nobody") eq_refl eq_refl)).
Defined.

(** X7: whatever the store answers, [handleBlockUser] changes no field of
    the user record other than blocked, so the user's notifications and
    profile stay, and it changes nothing under reports. *)
Theorem block_keeps_other_fields_and_reports st userId (k : string) :
  k <> "blocked" ->
  let run := handleBlockUser userId st in
  let location := ref ("users/" +:+ to_string userId) in
  child (get_at location (db (env (snd run)))) k =
    child (get_at location (db (env st))) k
  /\ child (db (env (snd run))) "reports" = child (db (env st)) "reports".
Proof.
  intros Hk. cbv zeta.
  change (ref ("users/" +:+ to_string userId)) with (userPath userId).
  destruct (verdict (next_reply (env st))) as [|f] eqn:Hv.
  - rewrite (block_accepted _ _ Hv). cbn [fst snd env ui db settle alerted].
    split.
    + apply child_update_at_other. by rewrite lookup_singleton_ne.
    + unfold userPath, update_at. rewrite ref_users.
      by apply child_alter_at_other.
  - rewrite (block_rejected _ _ f Hv). by split.
Qed.

Lemma block_keeps_other_fields_and_reports_witness :
  "email" <> "blocked"
  /\ child (get_at (ref "users/u1")
              (db (env (snd (handleBlockUser (VStr "u1") (Sample.idle []))))))
           "email" = VStr "ann@example.org".
Proof.
  split; [discriminate|].
  exact (proj1 (block_keeps_other_fields_and_reports
    (Sample.idle []) (VStr "u1") "email" ltac:(discriminate))).
Defined.

(** X8: whatever the store answers, each write stays in its collection:
    [toggleResolveStatus] changes nothing under users, and
    [sendNotificationToUser] changes nothing under reports. *)
Theorem writes_stay_in_their_collection
  st reportId userId currentStatus response :
  child (db (env (snd (toggleResolveStatus reportId currentStatus response st))))
        "users" = child (db (env st)) "users"
  /\ child (db (env (snd (sendNotificationToUser userId reportId response st))))
           "reports" = child (db (env st)) "reports".
Proof.
  split.
  - destruct (verdict (next_reply (env st))) as [|f] eqn:Hv.
    + rewrite (toggle_accepted _ _ _ _ Hv). cbn [fst snd env ui db settle].
      unfold reportPath, update_at. rewrite ref_reports.
      by apply child_alter_at_other.
    + by rewrite (toggle_rejected _ _ _ _ f Hv).
  - destruct (verdict (next_reply (env st))) as [|f] eqn:Hv.
    + rewrite (notify_accepted _ _ _ _ Hv). cbn [fst snd env ui db settle].
      unfold notificationPath, set_at. rewrite ref_users.
      by apply child_alter_at_other.
    + by rewrite (notify_rejected _ _ _ _ f Hv).
Qed.

(** X9: the new status is computed from the [currentStatus] the caller
    passes, not from the stored one.  Two accepted calls with the same
    [currentStatus] leave the status the first call wrote: the second does
    not flip it back; it only rewrites the response and the time stamp. *)
Theorem toggle_with_same_status_does_not_flip_back
  st reportId currentStatus response response' :
  verdict (next_reply (env st)) = Accepted ->
  verdict (remote (env st) (S (calls (env st)))) = Accepted ->
  let once := toggleResolveStatus reportId currentStatus response st in
  let twice := toggleResolveStatus reportId currentStatus response' (snd once) in
  let location := ref ("reports/" +:+ to_string reportId) in
  child (get_at location (db (env (snd twice)))) "status" =
    child (get_at location (db (env (snd once)))) "status"
  /\ child (get_at location (db (env (snd twice)))) "response" =
       or_else response' (VStr "")
  /\ child (get_at location (db (env (snd twice)))) "resolvedAt" =
       VNum (clock (env st) + elapsed (next_reply (env st))).
Proof.
  intros Hok Hok'. cbv zeta.
  rewrite (toggle_accepted _ _ _ _ Hok). cbn [fst snd].
  rewrite toggle_accepted by exact Hok'.
  cbn [fst snd env ui db settle clock].
  change (ref ("reports/" +:+ to_string reportId)) with (reportPath reportId).
  split; [|split].
  - rewrite !(child_update_at _ _ _ _ _ (toggled_status _ _ _)). reflexivity.
  - apply child_update_at, toggled_response.
  - apply child_update_at, toggled_resolvedAt.
Qed.

Lemma toggle_with_same_status_does_not_flip_back_witness :
  let st := Sample.idle [] in
  verdict (next_reply (env st)) = Accepted
  /\ verdict (remote (env st) (S (calls (env st)))) = Accepted
  /\ child (get_at (ref "reports/r1")
       (db (env (snd (toggleResolveStatus (VStr "r1") (VStr "pending") (VStr "b")
          (snd (toggleResolveStatus (VStr "r1") (VStr "pending") (VStr "a")
                  st)))))))
       "status" = VStr "resolved".
Proof.
  cbv zeta. split; [reflexivity|]. split; [reflexivity|].
  exact (proj1 (toggle_with_same_status_does_not_flip_back
    (Sample.idle []) (VStr "r1") (VStr "pending") (VStr "a") (VStr "b")
    eq_refl eq_refl)).
Defined.

(** X10: toggling and then toggling again from the status just written
    brings back the status the caller started from when that was pending or
    resolved; from any other starting value the second call ends on
    pending. *)
Theorem toggle_twice_round_trip
  st reportId currentStatus response response' :
  verdict (next_reply (env st)) = Accepted ->
  verdict (remote (env st) (S (calls (env st)))) = Accepted ->
  let location := ref ("reports/" +:+ to_string reportId) in
  let once := toggleResolveStatus reportId currentStatus response st in
  let written := child (get_at location (db (env (snd once)))) "status" in
  let twice := toggleResolveStatus reportId written response' (snd once) in
  let final := child (get_at location (db (env (snd twice)))) "status" in
  final = (if eq_str currentStatus "resolved"
           then VStr "resolved" else VStr "pending")
  /\ (currentStatus = VStr "pending" \/ currentStatus = VStr "resolved" ->
      final = currentStatus).
Proof.
  intros Hok Hok'. cbv zeta.
  rewrite (toggle_accepted _ _ _ _ Hok). cbn [fst snd env ui db settle].
  change (ref ("reports/" +:+ to_string reportId)) with (reportPath reportId).
  rewrite (child_update_at _ _ _ _ _ (toggled_status _ _ _)).
  rewrite toggle_accepted by exact Hok'.
  cbn [fst snd env ui db settle clock].
  rewrite (child_update_at _ _ _ _ _ (toggled_status _ _ _)).
  split.
  - by destruct (eq_str currentStatus "resolved").
  - by intros [-> | ->].
Qed.

Lemma toggle_twice_round_trip_witness :
  let st := Sample.idle [] in
  verdict (next_reply (env st)) = Accepted
  /\ verdict (remote (env st) (S (calls (env st)))) = Accepted
  /\ child (get_at (ref "reports/r1")
       (db (env (snd (toggleResolveStatus (VStr "r1")
          (child (get_at (ref "reports/r1")
             (db (env (snd (toggleResolveStatus (VStr "r1") (VStr "resolved")
                              (VStr "a") st))))) "status")
          (VStr "b")
          (snd (toggleResolveStatus (VStr "r1") (VStr "resolved") (VStr "a")
                  st)))))))
       "status" = VStr "resolved".
Proof.
  cbv zeta. split; [reflexivity|]. split; [reflexivity|].
  exact (proj1 (toggle_twice_round_trip
    (Sample.idle []) (VStr "r1") (VStr "resolved") (VStr "a") (VStr "b")
    eq_refl eq_refl)).
Defined.

End Writes.

(* ===================================================================== *)
(** ** The dialog: from a click on a row to the submit *)
(* ===================================================================== *)

Section Dialog.

Implicit Types (st : State) (report selected : Report).

Lemma or_else_empty_twice (v : value) :
  or_else (or_else v (VStr "")) (VStr "") = or_else v (VStr "").
Proof. unfold or_else. by destruct (truthy v) eqn:Hv; [rewrite Hv|]. Qed.

(** What a stream delivers changes neither the dialog nor anything the
    next remote call depends on. *)
Lemma deliver_keeps_dialog (ev : StreamEvent) st :
  let st' := snd (deliver ev st) in
  selectedReport (ui st') = selectedReport (ui st)
  /\ responseText (ui st') = responseText (ui st)
  /\ db (env st') = db (env st)
  /\ clock (env st') = clock (env st)
  /\ calls (env st') = calls (env st)
  /\ remote (env st') = remote (env st).
Proof. destruct ev as [[] snapshot|[] err]; by repeat split. Qed.

Lemma streams_keep_dialog (evs : list StreamEvent) st :
  let st' := run (Stream <$> evs) st in
  selectedReport (ui st') = selectedReport (ui st)
  /\ responseText (ui st') = responseText (ui st)
  /\ db (env st') = db (env st)
  /\ clock (env st') = clock (env st)
  /\ calls (env st') = calls (env st)
  /\ remote (env st') = remote (env st).
Proof.
  revert st. induction evs as [|ev evs IH]; intros st; [by repeat split|].
  cbv zeta. change (run (Stream <$> ev :: evs) st)
    with (run (Stream <$> evs) (snd (deliver ev st))).
  destruct (IH (snd (deliver ev st))) as (H1 & H2 & H3 & H4 & H5 & H6).
  destruct (deliver_keeps_dialog ev st) as (G1 & G2 & G3 & G4 & G5 & G6).
  cbv zeta in *. repeat split; congruence.
Qed.

(** X11: the submit works on the report object as it was when its row was
    clicked.  After a click on a row, whatever the streams deliver before
    the operator submits without typing, an accepted submit writes the
    status toggled from the clicked object's status and writes back the
    response that object carried (the empty string if it had none), sends
    that same response in the notification, and closes the dialog. *)
Theorem submit_uses_report_as_clicked
  st report (evs : list StreamEvent) :
  verdict (next_reply (env st)) = Accepted ->
  verdict (remote (env st) (S (calls (env st)))) = Accepted ->
  let opened := snd (handleReportClick report st) in
  let later := run (Stream <$> evs) opened in
  let result := snd (handleResponseSubmit later) in
  let record :=
    get_at (ref ("reports/" +:+ to_string (get report "id")))
           (db (env result)) in
  let sent :=
    get_at (ref ("users/" +:+ to_string (get report "userId")
                 +:+ "/notifications/" +:+ to_string (get report "id")))
           (db (env result)) in
  child record "status" =
    VStr (if eq_str (get report "status") "resolved"
          then "pending" else "resolved")
  /\ child record "response" = or_else (get report "response") (VStr "")
  /\ child sent "response" = or_else (get report "response") (VStr "")
  /\ selectedReport (ui result) = None.
Proof.
  intros HA HB. cbv zeta.
  set (opened := snd (handleReportClick report st)).
  destruct (streams_keep_dialog evs opened) as (Hsel & Htext & _ & _ & Hc & Hr).
  cbv zeta in *. set (later := run (Stream <$> evs) opened) in *.
  assert (Hsel' : selectedReport (ui later) = Some report) by (by rewrite Hsel).
  assert (HA' : verdict (next_reply (env later)) = Accepted).
  { unfold next_reply. rewrite Hr, Hc. exact HA. }
  assert (HB' : verdict (remote (env later) (S (calls (env later)))) = Accepted).
  { rewrite Hr, Hc. exact HB. }
  destruct (submit_both_accepted_outcome later report Hsel' HA' HB')
    as (Hst & Hresp & _ & Hsent & Hclosed & _).
  cbv zeta in *. unfold reportPath, notificationPath in *.
  rewrite Htext in Hresp, Hsent.
  change (responseText (ui opened))
    with (or_else (get report "response") (VStr "")) in *.
  rewrite or_else_empty_twice in Hresp.
  split; [exact Hst|]. split; [exact Hresp|]. split; [|exact Hclosed].
  rewrite Hsent. reflexivity.
Qed.

Lemma submit_uses_report_as_clicked_witness :
  let st := Sample.idle [] in
  let report := report_of ("r1", Sample.ann) in
  let evs := [Emits ReportsListener [("r1", Sample.bob)]] in
  verdict (next_reply (env st)) = Accepted
  /\ verdict (remote (env st) (S (calls (env st)))) = Accepted
  /\ child (get_at (ref "reports/r1")
       (db (env (snd (handleResponseSubmit
          (run (Stream <$> evs) (snd (handleReportClick report st))))))))
       "status" = VStr "resolved".
Proof.
  cbv zeta. split; [reflexivity|]. split; [reflexivity|].
  exact (proj1 (submit_uses_report_as_clicked
    (Sample.idle []) (report_of ("r1", Sample.ann))
    [Emits ReportsListener [("r1", Sample.bob)]] eq_refl eq_refl)).
Defined.

(** X12: what the component shows after a submit, by the store's two
    answers.  Both accepted: what it showed before, with the dialog closed
    and the draft emptied.  Step A rejected and Step B accepted: the error page
    with the status message.  Step B rejected: the error page with the
    submit message, whatever Step A's answer was.  So any rejection during
    a submit replaces the dashboard by the error page. *)
Theorem submit_screen_by_answers st selected :
  selectedReport (ui st) = Some selected ->
  screen (ui (snd (handleResponseSubmit st))) =
    match verdict (next_reply (env st)),
          verdict (remote (env st) (S (calls (env st)))) with
    | Accepted, Accepted =>
        screen (setResponseText (VStr "") (setSelectedReport None (ui st)))
    | Rejected _, Accepted =>
        ErrorScreen
          "Unable to update report status. Please check your permissions."
    | _, Rejected _ =>
        ErrorScreen "Failed to submit response. Please try again."
    end.
Proof.
  intros Hsel.
  destruct (verdict (next_reply (env st))) as [|f] eqn:HA;
    destruct (verdict (remote (env st) (S (calls (env st))))) as [|f'] eqn:HB.
  - by rewrite (submit_both_accepted _ _ Hsel HA HB).
  - by rewrite (submit_notify_rejected _ _ f' Hsel HA HB).
  - by rewrite (submit_toggle_rejected _ _ f Hsel HA HB).
  - by rewrite (submit_both_rejected _ _ f f' Hsel HA HB).
Qed.

Lemma submit_screen_by_answers_witness :
  let st := Sample.replying [Rejected PermissionDenied] in
  selectedReport (ui st) = Some (report_of ("r1", Sample.ann))
  /\ screen (ui (snd (handleResponseSubmit st))) =
     ErrorScreen
       "Unable to update report status. Please check your permissions.".
Proof.
  cbv zeta. split; [reflexivity|].
  exact (submit_screen_by_answers (Sample.replying [Rejected PermissionDenied])
           (report_of ("r1", Sample.ann)) eq_refl).
Defined.

End Dialog.

(* ===================================================================== *)
(** ** The three streams together *)
(* ===================================================================== *)

Section Streams.

Implicit Types (st : State) (l : Listener) (snapshot : DataSnapshot).

(** X13: snapshots of two different listeners can arrive in either order:
    the resulting state is the same, each listener writing only its own
    part of the projection. *)
Theorem snapshots_of_different_listeners_commute
  st l l' snapshot snapshot' :
  l <> l' ->
  snd (onSnapshot l' snapshot' (snd (onSnapshot l snapshot st))) =
  snd (onSnapshot l snapshot (snd (onSnapshot l' snapshot' st))).
Proof. intros Hne. destruct l, l'; done. Qed.

Lemma snapshots_of_different_listeners_commute_witness :
  ReportsListener <> ResolvedListener
  /\ snd (onSnapshot ResolvedListener [("r2", Sample.bob)]
            (snd (onSnapshot ReportsListener
                    [("r1", Sample.ann); ("r2", Sample.bob)] (Sample.idle [])))) =
     snd (onSnapshot ReportsListener [("r1", Sample.ann); ("r2", Sample.bob)]
            (snd (onSnapshot ResolvedListener [("r2", Sample.bob)]
                    (Sample.idle [])))).
Proof.
  split; [discriminate|].
  exact (snapshots_of_different_listeners_commute (Sample.idle [])
           ReportsListener ResolvedListener
           [("r1", Sample.ann); ("r2", Sample.bob)] [("r2", Sample.bob)]
           ltac:(discriminate)).
Defined.

(** X14: on one listener only the latest snapshot counts: handling a
    snapshot after an earlier one of the same listener gives the state that
    handling it alone gives. *)
Theorem latest_snapshot_of_a_listener_wins st l snapshot snapshot' :
  snd (onSnapshot l snapshot' (snd (onSnapshot l snapshot st))) =
  snd (onSnapshot l snapshot' st).
Proof. by destruct l. Qed.

End Streams.

(* ===================================================================== *)
(** ** What a report built by the listener holds *)
(* ===================================================================== *)

Section Materialized.

Lemma report_of_id_present (key : string) (payload : value) :
  is_Some (report_of (key, payload) !! "id").
Proof.
  unfold report_of, spread; simpl. rewrite lookup_union.
  destruct (own_props payload !! "id"); simpl;
    rewrite lookup_singleton_eq; by eexists.
Qed.

(** X15: a report built by the reports listener always has an id property,
    and every other own property of the payload is in it unchanged; a
    payload without own properties (a number, a boolean) gives the report
    that holds the key as id and nothing else. *)
Theorem report_of_has_id_and_payload_fields (key : string) (payload : value) :
  is_Some (report_of (key, payload) !! "id")
  /\ (forall k, k <> "id" ->
        report_of (key, payload) !! k = own_props payload !! k)
  /\ (own_props payload = ∅ ->
        report_of (key, payload) = {[ "id" := VStr key ]}).
Proof.
  split; [apply report_of_id_present|].
  unfold report_of, spread; simpl. split.
  - intros k Hk. rewrite lookup_union, lookup_singleton_ne by done.
    by destruct (own_props payload !! k).
  - intros ->. by rewrite (left_id_L ∅ (∪)).
Qed.

End Materialized.

(* ===================================================================== *)
(** ** Mounting *)
(* ===================================================================== *)

Section Mounting.

(** X16: [fetchData] always returns normally and always clears the loading
    flag, also when setting up the listeners throws; in that case the
    exception is printed and the error slot gets the connection message,
    otherwise the error slot is left alone.  It touches neither the report
    list, the counters, the dialog nor the store. *)
Theorem fetchData_clears_loading (st : State) (thrown : option exn) :
  let run := fetchData thrown st in
  fst run = Normal tt
  /\ loading (ui (snd run)) = false
  /\ error (ui (snd run)) =
       match thrown with
       | None => error (ui st)
       | Some _ =>
           Some "Unable to connect to the database. Please try again later."
       end
  /\ console (env (snd run)) =
       match thrown with
       | None => console (env st)
       | Some err => console (env st) ++ [("Error setting up listeners:", err)]
       end
  /\ reports (ui (snd run)) = reports (ui st)
  /\ stats (ui (snd run)) = stats (ui st)
  /\ selectedReport (ui (snd run)) = selectedReport (ui st)
  /\ db (env (snd run)) = db (env st).
Proof. destruct thrown; by repeat split. Qed.

(** X17: the loading flag is cleared by the mount, not by the first
    snapshot.  After a mount that did not throw and before anything has
    arrived, the component, started from its initial state, shows the
    dashboard with all counters at zero and the panel saying that no
    reports were found, not the loading text. *)
Theorem mounted_before_first_snapshot_shows_no_reports (w : World) :
  screen initial =
    DashboardScreen (mkStats 0 0 0) LoadingReports false false
  /\ screen (ui (snd (fetchData None (mkState initial w)))) =
    DashboardScreen (mkStats 0 0 0) NoReportsFound false false.
Proof. split; reflexivity. Qed.

End Mounting.

(* ===================================================================== *)
(** ** Invariants of the component over any sequence of events *)
(* ===================================================================== *)

Section Traces.

Implicit Types (st : State) (a : Action) (trace : list Action).

Lemma run_cons a trace st : run (a :: trace) st = run trace (snd (act a st)).
Proof. reflexivity. Qed.

(** A property kept by every event is kept by every sequence of events. *)
Lemma run_invariant (P : State -> Prop) :
  (forall a st, P st -> P (snd (act a st))) ->
  forall trace st, P st -> P (run trace st).
Proof.
  intros Hstep trace. induction trace as [|a trace IH]; intros st HP; [done|].
  rewrite run_cons. by apply IH, Hstep.
Qed.

(** The component state a submit can end in. *)
Lemma submit_ui st :
  fst (handleResponseSubmit st) = Normal tt
  /\ (ui (snd (handleResponseSubmit st)) = ui st
      \/ ui (snd (handleResponseSubmit st)) =
           setResponseText (VStr "") (setSelectedReport None (ui st))
      \/ ui (snd (handleResponseSubmit st)) =
           setError "Failed to submit response. Please try again." (ui st)
      \/ ui (snd (handleResponseSubmit st)) =
           setResponseText (VStr "")
             (setSelectedReport None
                (setError
                   "Unable to update report status. Please check your permissions."
                   (ui st)))
      \/ ui (snd (handleResponseSubmit st)) =
           setError "Failed to submit response. Please try again."
             (setError
                "Unable to update report status. Please check your permissions."
                (ui st))).
Proof.
  destruct (selectedReport (ui st)) as [selected|] eqn:Hsel.
  - destruct (verdict (next_reply (env st))) as [|f] eqn:HA;
      destruct (verdict (remote (env st) (S (calls (env st))))) as [|f'] eqn:HB.
    + rewrite (submit_both_accepted _ _ Hsel HA HB). auto.
    + rewrite (submit_notify_rejected _ _ f' Hsel HA HB). auto.
    + rewrite (submit_toggle_rejected _ _ f Hsel HA HB). auto 6.
    + rewrite (submit_both_rejected _ _ f f' Hsel HA HB). auto 6.
  - unfold handleResponseSubmit. rewrite Hsel. auto.
Qed.

(** The component state a click on Block User can end in. *)
Lemma block_ui st :
  fst (onBlockClick st) = Normal tt
  /\ (ui (snd (onBlockClick st)) = ui st
      \/ ui (snd (onBlockClick st)) =
           setError "Unable to block user. Please check your permissions."
                    (ui st)).
Proof.
  unfold onBlockClick.
  destruct (selectedReport (ui st)) as [selected|]; [|auto].
  destruct (verdict (next_reply (env st))) as [|f] eqn:Hv.
  - rewrite (block_accepted _ _ Hv). auto.
  - rewrite (block_rejected _ _ f Hv). auto.
Qed.

(** X18: no event handler of the component lets an exception escape:
    mounting, every stream event, and every click or keystroke return
    normally in every state and whatever the store answers. *)
Theorem no_event_throws a st : fst (act a st) = Normal tt.
Proof.
  destruct a as [thrown|ev|report|text| | |]; simpl.
  - by destruct thrown.
  - by destruct ev as [[] snapshot|[] err].
  - done.
  - done.
  - apply submit_ui.
  - apply block_ui.
  - done.
Qed.

Lemma act_cells a st :
  let d := ui st in
  let d' := ui (snd (act a st)) in
  (error d' = error d
   \/ exists message, error d' = Some message /\ String.eqb message "" = false)
  /\ (loading d' = loading d \/ loading d' = false)
  /\ (responseText d' = responseText d \/ draftOk (responseText d'))
  /\ ((reports d' = reports d /\ totalReports (stats d') = totalReports (stats d))
      \/ length (reports d') = totalReports (stats d')).
Proof.
  cbv zeta.
  destruct a as [thrown|ev|report|text| | |]; simpl.
  - destruct thrown; simpl; repeat split; eauto.
  - destruct ev as [[] snapshot|[] err]; simpl; repeat split; eauto.
  - repeat split; auto. right. unfold draftOk, or_else.
    destruct (truthy (get report "response")) eqn:Ht; auto.
  - repeat split; auto. right. unfold draftOk; simpl.
    destruct (String.eqb_spec text ""); subst; auto.
  - destruct (submit_ui st) as [_ [H|[H|[H|[H|H]]]]]; rewrite H; simpl;
      repeat split; eauto; right; by right.
  - destruct (block_ui st) as [_ [H|H]]; rewrite H; simpl;
      repeat split; eauto.
  - repeat split; auto.
Qed.

(** X19: the list and its counter stay together.  From a state in which
    [totalReports] is the length of the report list, such as the initial
    one, every sequence of events leads to a state in which it still is. *)
Theorem total_reports_is_list_length_always trace st :
  length (reports (ui st)) = totalReports (stats (ui st)) ->
  length (reports (ui (run trace st))) = totalReports (stats (ui (run trace st))).
Proof.
  apply (run_invariant
    (fun s => length (reports (ui s)) = totalReports (stats (ui s)))).
  clear. intros a st Hst.
  destruct (act_cells a st) as (_ & _ & _ & [[Hr Ht]|H]); cbv zeta in *.
  - by rewrite Hr, Ht.
  - exact H.
Qed.

Lemma total_reports_is_list_length_always_witness :
  let st := Sample.idle [Rejected PermissionDenied] in
  let trace :=
    [ Mount None;
      Stream (Emits ReportsListener [("r1", Sample.ann); ("r2", Sample.bob)]);
      ClickRow (report_of ("r1", Sample.ann));
      ClickSubmit;
      Stream (Fails UsersListener (FirebaseError Disconnected)) ] in
  length (reports (ui st)) = totalReports (stats (ui st))
  /\ length (reports (ui (run trace st))) =
     totalReports (stats (ui (run trace st))).
Proof.
  cbv zeta. split; [reflexivity|].
  apply total_reports_is_list_length_always. reflexivity.
Defined.

(** X20: the error page is final.  Once the component shows the error
    page, it shows an error page after every further sequence of events:
    no handler ever clears the error slot. *)
Theorem error_page_is_final trace st message :
  screen (ui st) = ErrorScreen message ->
  exists message', screen (ui (run trace st)) = ErrorScreen message'.
Proof.
  intros Hscreen.
  assert (Hshown : forall d, (exists m, screen d = ErrorScreen m) <->
            (exists m, error d = Some m /\ String.eqb m "" = false)).
  { intros d. unfold screen, dashboardScreen. split.
    - intros [m Hm]. destruct (error d) as [m'|]; [|discriminate].
      destruct (String.eqb m' "") eqn:He; [discriminate|]. eauto.
    - intros (m & -> & ->). eauto. }
  apply Hshown.
  apply (run_invariant
    (fun s => exists m, error (ui s) = Some m /\ String.eqb m "" = false));
    [|apply Hshown; eauto].
  clear. intros a st (m & Hm & Hne).
  destruct (act_cells a st) as ([H|H] & _); cbv zeta in *.
  - rewrite H. eauto.
  - exact H.
Qed.

Lemma error_page_is_final_witness :
  let st := snd (handleBlockUser (VStr "u1")
                   (Sample.replying [Rejected PermissionDenied])) in
  let trace :=
    [ ClickClose;
      Stream (Emits ReportsListener [("r1", Sample.ann)]);
      ClickRow (report_of ("r1", Sample.ann));
      TypeResponse "Done";
      ClickSubmit ] in
  screen (ui st) =
    ErrorScreen "Unable to block user. Please check your permissions."
  /\ exists message', screen (ui (run trace st)) = ErrorScreen message'.
Proof.
  cbv zeta. split; [reflexivity|].
  apply (error_page_is_final _ _
           "Unable to block user. Please check your permissions.").
  reflexivity.
Defined.

(** X21: the loading flag never comes back: once it is false it is false
    after every sequence of events. *)
Theorem loading_never_comes_back trace st :
  loading (ui st) = false -> loading (ui (run trace st)) = false.
Proof.
  apply (run_invariant (fun s => loading (ui s) = false)).
  clear. intros a st Hst.
  destruct (act_cells a st) as (_ & [H|H] & _); cbv zeta in *; congruence.
Qed.

Lemma loading_never_comes_back_witness :
  let st := snd (fetchData None (Sample.idle [])) in
  let trace :=
    [ Stream (Emits ReportsListener []); Mount (Some (Error "offline"));
      ClickClose ] in
  loading (ui st) = false /\ loading (ui (run trace st)) = false.
Proof.
  cbv zeta. split; [reflexivity|].
  apply loading_never_comes_back. reflexivity.
Defined.

(** X22: the draft is never undefined, null, false or zero: from a state
    whose draft is a truthy value or the empty string, such as the initial
    one, every sequence of events leads to such a state. *)
Theorem draft_is_always_well_formed trace st :
  draftOk (responseText (ui st)) -> draftOk (responseText (ui (run trace st))).
Proof.
  apply (run_invariant (fun s => draftOk (responseText (ui s)))).
  clear. intros a st Hst.
  destruct (act_cells a st) as (_ & _ & [H|H] & _); cbv zeta in *.
  - by rewrite H.
  - exact H.
Qed.

Lemma draft_is_always_well_formed_witness :
  let st := Sample.idle [] in
  let trace :=
    [ ClickRow (report_of ("r1", Sample.ann)); TypeResponse ""; ClickSubmit;
      ClickRow (report_of ("r2", Sample.bob)); ClickClose ] in
  draftOk (responseText (ui st))
  /\ draftOk (responseText (ui (run trace st))).
Proof.
  cbv zeta. split; [right; reflexivity|].
  apply draft_is_always_well_formed. right; reflexivity.
Defined.



(** X24: the operations never write the projection themselves.  Whatever
    the store answers, a click on a row, a submit and a blocking leave the
    report list, the counters and the loading flag as they are: a change
    made in the store shows only when a stream delivers it. *)
Theorem operations_leave_projection_alone st (report : Report) (userId : value) :
  projection (ui (snd (handleReportClick report st))) = projection (ui st)
  /\ projection (ui (snd (handleResponseSubmit st))) = projection (ui st)
  /\ projection (ui (snd (handleBlockUser userId st))) = projection (ui st).
Proof.
  split; [done|]. split.
  - destruct (submit_ui st) as [_ [H|[H|[H|[H|H]]]]]; by rewrite H.
  - destruct (verdict (next_reply (env st))) as [|f] eqn:Hv.
    + by rewrite (block_accepted _ _ Hv).
    + by rewrite (block_rejected _ _ f Hv).
Qed.

End Traces.

(* ===================================================================== *)
(** ** When the chart is shown *)
(* ===================================================================== *)

Section ChartShown.

(** X25: the chart is replaced by its placeholder text exactly when no
    report of the list has matterType Community; a report without a
    matterType, or with one spelled differently, does not count. *)
Theorem chart_placeholder_iff_no_community_report (reports : list Report) :
  (0 <? length (communityChartData reports))%nat = false <->
  Forall (fun report : Report =>
            report !! "matterType" <> Some (VStr "Community")) reports.
Proof.
  induction reports as [|report rest IH]; [by split|].
  rewrite communityChartData_cons, Forall_cons.
  destruct (isCommunity report) eqn:Hc.
  - split; [discriminate|]. intros [Hno _].
    apply isCommunity_spec in Hc. contradiction.
  - rewrite IH. split; [|tauto]. intros Hrest. split; [|exact Hrest].
    intros Hm. apply isCommunity_spec in Hm. congruence.
Qed.

End ChartShown.
